(** * HexFF: the hex edit view (windowed read, byte inspector, edit buffer)

    A shallow embedding of the React component [HextEditViewComponent]
    and of the Tauri wrappers it calls ([readFile], [getDataInPosition]).
    The component state, the promises in flight and the debounce timer are
    threaded explicitly through a step function over UI events. *)

From Stdlib Require Import ZArith Ascii String List Lia.
From Corelib Require Import PrimFloat.
From stdpp Require Import base option list gmap strings.

#[local] Set Warnings "-register-all".

Local Open Scope Z_scope.

(** ** JavaScript values and completions *)

Module Js.

(** The values a backend answer can hold, and [undefined]. A string is
    its sequence of UTF-16 code units, a number is a double, an object
    lists its own properties, each key once. *)
Inductive JsVal : Type :=
| VUndefined
| VNull
| VBoolean (b : bool)
| VNumber (n : float)
| VString (s : list N)
| VArray (xs : list JsVal)
| VObject (fields : list (list N * JsVal)).

(** The code units of a text of Latin-1 characters. *)
Definition js_string (s : string) : list N := N_of_ascii <$> list_ascii_of_string s.

(** [o[key]] on an object. *)
Fixpoint get_property (key : list N) (fields : list (list N * JsVal)) : option JsVal :=
  match fields with
  | [] => None
  | (k, v) :: rest => if bool_decide (k = key) then Some v else get_property key rest
  end.

(** What a [throw] carries: [new Error(message)], the [TypeError] of a
    property read on [undefined], the [DOMException] of [atob]. *)
Inductive Thrown : Type :=
| ErrorObj (message : string)
| TypeError
| InvalidCharacterError.

(** A statement either completes normally or throws. *)
Inductive Completion (A : Type) : Type :=
| Normal (a : A)
| Throw (t : Thrown).
Arguments Normal {A} a.
Arguments Throw {A} t.

#[export] Instance completion_ret : MRet Completion := fun A a => Normal a.
#[export] Instance completion_bind : MBind Completion := fun A B k c =>
  match c with
  | Normal a => k a
  | Throw t => Throw t
  end.

(** [o[0]] where [o] is the result of a property read [f.k]: a missing
    property reads as [undefined]; indexing [undefined] or [null] throws;
    a string gives its first code unit as a string, an array its first
    element, an object its property ["0"], and a boolean or a number has
    no such property. *)
Definition index0 (o : option JsVal) : Completion JsVal :=
  match o with
  | None | Some VUndefined | Some VNull => Throw TypeError
  | Some (VBoolean _) | Some (VNumber _) => Normal VUndefined
  | Some (VString []) => Normal VUndefined
  | Some (VString (c :: _)) => Normal (VString [c])
  | Some (VArray []) => Normal VUndefined
  | Some (VArray (x :: _)) => Normal x
  | Some (VObject fields) => Normal (default VUndefined (get_property [48%N] fields))
  end.

(** A number that holds an integer, or an infinity. *)
Inductive Number : Type :=
| Finite (z : Z)
| Infinite (negative : bool).

(** The double nearest to an integer, ties to the even significand; from
    2^1024 on the result is an infinity. *)
Definition round_double (x : Z) : Number :=
  let m := Z.abs x in
  if m <=? 2 ^ 53 then Finite x
  else
    let e := Z.log2 m - 52 in
    let q := m / 2 ^ e in
    let r := m mod 2 ^ e in
    let half := 2 ^ (e - 1) in
    let q' := if (half <? r) || ((r =? half) && Z.odd q) then q + 1 else q in
    let y := q' * 2 ^ e in
    if 2 ^ 1024 <=? y then Infinite (x <? 0) else Finite (Z.sgn x * y).

(** [a + b] on numbers that hold integers: the exact sum, rounded. *)
Definition number_add (a b : Z) : Number := round_double (a + b).

(** [ToUint8]: the coercion a [Uint8Array] applies to every element. *)
Definition ToUint8 (n : Z) : Z := n mod 256.

(** [c.codePointAt(0) ?? 0] on a one-character string [c]. *)
Definition codePointAt0 (c : ascii) : Z := Z.of_N (N_of_ascii c).

End Js.

Import Js.

(** ** [window.atob]: the forgiving base64 decoder of the platform *)

Module Base64.

Definition is_ascii_whitespace (c : ascii) : bool :=
  let n := N_of_ascii c in
  (n =? 9)%N || (n =? 10)%N || (n =? 12)%N || (n =? 13)%N || (n =? 32)%N.

(** Value of a character of the base64 alphabet, [None] outside it. *)
Definition b64_value (c : ascii) : option Z :=
  let n := Z.of_N (N_of_ascii c) in
  if (65 <=? n) && (n <=? 90) then Some (n - 65)
  else if (97 <=? n) && (n <=? 122) then Some (n - 97 + 26)
  else if (48 <=? n) && (n <=? 57) then Some (n - 48 + 52)
  else if n =? 43 then Some 62
  else if n =? 47 then Some 63
  else None.

Fixpoint b64_values (cs : list ascii) : option (list Z) :=
  match cs with
  | [] => Some []
  | c :: cs' =>
      match b64_value c, b64_values cs' with
      | Some v, Some vs => Some (v :: vs)
      | _, _ => None
      end
  end.

(** When the length is a multiple of four, one or two trailing [=] are
    removed. *)
Definition strip_padding (cs : list ascii) : list ascii :=
  if (Z.of_nat (length cs) mod 4 =? 0) then
    match rev cs with
    | c1 :: r1 =>
        if Ascii.eqb c1 "=" then
          match r1 with
          | c2 :: r2 => if Ascii.eqb c2 "=" then rev r2 else rev r1
          | [] => rev r1
          end
        else cs
    | [] => cs
    end
  else cs.

(** Four sextets give three bytes; a tail of three sextets gives two
    bytes and a tail of two gives one, the spare bits dropped. *)
Fixpoint sextets_to_bytes (vs : list Z) : list Z :=
  match vs with
  | a :: b :: c :: d :: rest =>
      let n := Z.lor (Z.lor (Z.shiftl a 18) (Z.shiftl b 12)) (Z.lor (Z.shiftl c 6) d) in
      Z.land (Z.shiftr n 16) 255 :: Z.land (Z.shiftr n 8) 255 :: Z.land n 255
        :: sextets_to_bytes rest
  | [a; b; c] =>
      let n := Z.shiftr (Z.lor (Z.lor (Z.shiftl a 12) (Z.shiftl b 6)) c) 2 in
      [Z.land (Z.shiftr n 8) 255; Z.land n 255]
  | [a; b] =>
      let n := Z.shiftr (Z.lor (Z.shiftl a 6) b) 4 in
      [Z.land n 255]
  | _ => []
  end.

Definition atob_chars (data : list ascii) : option (list Z) :=
  let data := List.filter (fun c => negb (is_ascii_whitespace c)) data in
  let data := strip_padding data in
  if (Z.of_nat (length data) mod 4 =? 1) then None
  else sextets_to_bytes <$> b64_values data.

(** [atob(s)]: the binary string, one character per decoded byte, or
    [InvalidCharacterError]. *)
Definition atob (s : string) : Js.Completion string :=
  match atob_chars (list_ascii_of_string s) with
  | Some bs => Js.Normal (string_of_list_ascii (map (fun b => ascii_of_N (Z.to_N b)) bs))
  | None => Js.Throw Js.InvalidCharacterError
  end.

(** The character of the alphabet for a sextet. *)
Definition b64_char (v : Z) : ascii :=
  ascii_of_N (Z.to_N
    (if v <? 26 then v + 65
     else if v <? 52 then v - 26 + 97
     else if v <? 62 then v - 52 + 48
     else if v =? 62 then 43 else 47)).

(** Modelled from the spec: the transport encoder of the file service
    (the [read_file] command), absent from the sources. It is the
    printable-safe transport encoding of the window reader's contract,
    which the call to [atob] fixes as standard base64 with padding:
    three bytes give four sextets, a tail of two bytes gives three and a
    tail of one gives two, and [=] fills the last group. *)
Fixpoint sextets (bs : list Z) : list Z :=
  match bs with
  | a :: b :: c :: rest =>
      Z.shiftr a 2
        :: Z.lor (Z.shiftl (Z.land a 3) 4) (Z.shiftr b 4)
        :: Z.lor (Z.shiftl (Z.land b 15) 2) (Z.shiftr c 6)
        :: Z.land c 63 :: sextets rest
  | [a; b] =>
      [Z.shiftr a 2;
       Z.lor (Z.shiftl (Z.land a 3) 4) (Z.shiftr b 4);
       Z.shiftl (Z.land b 15) 2]
  | [a] => [Z.shiftr a 2; Z.shiftl (Z.land a 3) 4]
  | [] => []
  end.

(** Modelled from the spec: the [=] that fill the last group of the
    absent encoder's output. *)
Fixpoint padding (bs : list Z) : list ascii :=
  match bs with
  | _ :: _ :: _ :: rest => padding rest
  | [_; _] => ["="%char]
  | [_] => ["="%char; "="%char]
  | [] => []
  end.

(** Modelled from the spec: the characters the absent encoder ships. *)
Definition encode (bs : list Z) : list ascii := (b64_char <$> sextets bs) ++ padding bs.

(** Modelled from the spec: the payload [file_data] of the absent encoder,
    the counterpart of [atob]. *)
Definition btoa (bs : list Z) : string := string_of_list_ascii (encode bs).

End Base64.

(** ** The Tauri wrappers *)

Module TauriWrappers.

Record FileReadResult : Type := {
  file_index : Z;
  file_data : string;
}.

(** [DataInPositionResult] is used as a plain object, a finite map from
    property names to values ([gmap string JsVal]): the view spreads it
    and overrides six of its properties. *)

(** The commands sent to the backend through [invoke]. *)
Inductive Invoke : Type :=
| read_file (fileIndex filePos : Z)
| get_data_in_position (fileIndex filePos : Z).

(** How the promise returned by [invoke] settles; a rejection carries
    the backend's message, a string. *)
Inductive Settled (A : Type) : Type :=
| Fulfilled (a : A)
| Rejected (reason : string).
Arguments Fulfilled {A} a.
Arguments Rejected {A} reason.

(** The body shared by the wrappers:
    [try { return await invoke(..) } catch (error) { throw new Error(`${error}`) }]. *)
Definition wrap {A} (o : Settled A) : Completion A :=
  match o with
  | Fulfilled a => Normal a
  | Rejected reason => Throw (ErrorObj reason)
  end.

Definition readFile (fileIndex filePos : Z) : Invoke := read_file fileIndex filePos.
Definition getDataInPosition (fileIndex filePos : Z) : Invoke :=
  get_data_in_position fileIndex filePos.

End TauriWrappers.

Import TauriWrappers.

(** ** Module HexEditView: the props and the two formatters *)

Module HexEditView.

(** The props the component destructures; [className] is styling only and
    [notification] is the sink modelled in the state below. *)
Record HexEditViewProps : Type := {
  rows : Z;
  fileIndex : Z;
  fileSize : Z;
  hexUpperCase : bool;
}.

(** Modelled from the spec: the digits of [formatterUpper] and
    [formatterLower], absent from the sources; upper or lower case as
    asked. *)
Definition hex_digit (upper : bool) (d : N) : ascii :=
  if (d <? 10)%N then ascii_of_N (48 + d)
  else ascii_of_N ((if upper then 55 else 87) + d).

(** Modelled from the spec: two hex digits per byte-equivalent unit, for
    the absent formatters. *)
Definition hex_byte (upper : bool) (b : N) : string :=
  String (hex_digit upper (b / 16)) (String (hex_digit upper (b mod 16)) EmptyString).

(** Modelled from the spec: the units of the absent formatters, most
    significant first, at least one. *)
Fixpoint hex_units (fuel : nat) (upper : bool) (n : N) (acc : string) : string :=
  let acc' := (hex_byte upper (n mod 256) ++ acc)%string in
  match fuel with
  | O => acc'
  | S fuel' => if (n / 256 =? 0)%N then acc' else hex_units fuel' upper (n / 256) acc'
  end.

(** Modelled from the spec: zero-padded hexadecimal text of a number, for
    the absent formatters. *)
Definition hex_text (upper : bool) (n : N) : string :=
  hex_units (N.to_nat (N.size n)) upper n EmptyString.

(** Modelled from the spec: [formatterUpper] of module HexEditView, absent
    from the sources. The display formatter renders a number as
    zero-padded hexadecimal text, two hex digits per byte-equivalent unit,
    in upper case; the spec speaks of non-negative values only, and the
    magnitude is rendered here. *)
Definition formatterUpper (value : Z) : string := hex_text true (Z.abs_N value).

(** Modelled from the spec: [formatterLower] of module HexEditView, absent
    from the sources; as [formatterUpper], in lower case. *)
Definition formatterLower (value : Z) : string := hex_text false (Z.abs_N value).

End HexEditView.

Import HexEditView.

(** ** The hex edit view component *)

Module HextEditViewComponent.

(** The component state ([useState], [useRef]) followed by the part of
    the world the component acts on: the debounce timer, the requests
    in flight, the log of backend calls and the notification sink. *)
Record State : Type := {
  fromPosition : Z;
  hexData : list (option Z);
  positionByteValues : option (gmap string JsVal);
  bigEndian : bool;
  readError : bool;
  debounceTimer : option nat;
  nextRequest : nat;
  inflight : gmap nat Invoke;
  calls : list Invoke;
  notifications : list (string * string);
}.

Definition setFromPosition (v : Z) (st : State) : State :=
  {| fromPosition := v; hexData := hexData st;
     positionByteValues := positionByteValues st; bigEndian := bigEndian st;
     readError := readError st; debounceTimer := debounceTimer st;
     nextRequest := nextRequest st; inflight := inflight st;
     calls := calls st; notifications := notifications st |}.

Definition setHexData (h : list (option Z)) (st : State) : State :=
  {| fromPosition := fromPosition st; hexData := h;
     positionByteValues := positionByteValues st; bigEndian := bigEndian st;
     readError := readError st; debounceTimer := debounceTimer st;
     nextRequest := nextRequest st; inflight := inflight st;
     calls := calls st; notifications := notifications st |}.

Definition setPositionByteValues (b : gmap string JsVal) (st : State) : State :=
  {| fromPosition := fromPosition st; hexData := hexData st;
     positionByteValues := Some b; bigEndian := bigEndian st;
     readError := readError st; debounceTimer := debounceTimer st;
     nextRequest := nextRequest st; inflight := inflight st;
     calls := calls st; notifications := notifications st |}.

Definition setBigEndian (c : bool) (st : State) : State :=
  {| fromPosition := fromPosition st; hexData := hexData st;
     positionByteValues := positionByteValues st; bigEndian := c;
     readError := readError st; debounceTimer := debounceTimer st;
     nextRequest := nextRequest st; inflight := inflight st;
     calls := calls st; notifications := notifications st |}.

Definition setReadError (e : bool) (st : State) : State :=
  {| fromPosition := fromPosition st; hexData := hexData st;
     positionByteValues := positionByteValues st; bigEndian := bigEndian st;
     readError := e; debounceTimer := debounceTimer st;
     nextRequest := nextRequest st; inflight := inflight st;
     calls := calls st; notifications := notifications st |}.

Definition setTimer (t : option nat) (st : State) : State :=
  {| fromPosition := fromPosition st; hexData := hexData st;
     positionByteValues := positionByteValues st; bigEndian := bigEndian st;
     readError := readError st; debounceTimer := t;
     nextRequest := nextRequest st; inflight := inflight st;
     calls := calls st; notifications := notifications st |}.

(** [notification(level, message)]: the sink records what it is given. *)
Definition notification (level message : string) (st : State) : State :=
  {| fromPosition := fromPosition st; hexData := hexData st;
     positionByteValues := positionByteValues st; bigEndian := bigEndian st;
     readError := readError st; debounceTimer := debounceTimer st;
     nextRequest := nextRequest st; inflight := inflight st;
     calls := calls st; notifications := notifications st ++ [(level, message)] |}.

(** Calling a wrapper sends the command and leaves a promise pending. *)
Definition send (c : Invoke) (st : State) : State :=
  {| fromPosition := fromPosition st; hexData := hexData st;
     positionByteValues := positionByteValues st; bigEndian := bigEndian st;
     readError := readError st; debounceTimer := debounceTimer st;
     nextRequest := S (nextRequest st);
     inflight := <[nextRequest st := c]> (inflight st);
     calls := calls st ++ [c]; notifications := notifications st |}.

Definition settle (id : nat) (st : State) : State :=
  {| fromPosition := fromPosition st; hexData := hexData st;
     positionByteValues := positionByteValues st; bigEndian := bigEndian st;
     readError := readError st; debounceTimer := debounceTimer st;
     nextRequest := nextRequest st; inflight := delete id (inflight st);
     calls := calls st; notifications := notifications st |}.

(** The six character properties the view narrows to their first unit. *)
Definition charFields : list string :=
  ["char_le_utf8"; "char_le_utf16"; "char_le_utf32";
   "char_be_utf8"; "char_be_utf16"; "char_be_utf32"]%string.

(** The object literal of the [then] callback of [onFilePositionChange]:
    [{ ...f, char_le_utf8: f.char_le_utf8[0], ... }]. *)
Definition reduceBundle (f : gmap string JsVal) : Completion (gmap string JsVal) :=
  le8 ← index0 (f !! "char_le_utf8"%string);
  le16 ← index0 (f !! "char_le_utf16"%string);
  le32 ← index0 (f !! "char_le_utf32"%string);
  be8 ← index0 (f !! "char_be_utf8"%string);
  be16 ← index0 (f !! "char_be_utf16"%string);
  be32 ← index0 (f !! "char_be_utf32"%string);
  mret (<["char_be_utf32"%string := be32]> (<["char_be_utf16"%string := be16]>
       (<["char_be_utf8"%string := be8]> (<["char_le_utf32"%string := le32]>
       (<["char_le_utf16"%string := le16]> (<["char_le_utf8"%string := le8]> f)))))).

(** [Uint8Array.from(s, c => c.codePointAt(0) ?? 0)] then [[...buff]]. *)
Definition Uint8Array_from (s : string) : list Z :=
  map (fun c => ToUint8 (codePointAt0 c)) (list_ascii_of_string s).

(** [modifyHexData[bytePosition] = value] on the copy [[...hexData]]: an
    assignment past the end extends the array, the gap reading as
    [undefined] ([None]). *)
Definition array_assign (l : list (option Z)) (i : nat) (v : Z) : list (option Z) :=
  if decide (i < length l)%nat then <[i := Some v]> l
  else l ++ replicate (i - length l)%nat None ++ [Some v].

(** Modelled from the spec: the hook [useDebounce] (hooks/UseDebounce),
    absent from the sources. A timer reset on change: each change of the
    callback cancels the pending task and schedules a new one after the
    delay; only the task still pending when the delay has passed calls
    the callback. The timer holds the time left. *)
Definition useDebounce (delay : nat) (changed : bool) (st : State) : State :=
  if changed then setTimer (Some delay) st else st.

(** Modelled from the spec: the passing of time for the absent hook. The
    pending task runs the callback once its delay is over; until then
    the time left shrinks. *)
Definition useDebounce_elapse (callback : State -> State) (dt : nat) (st : State) : State :=
  match debounceTimer st with
  | Some remaining =>
      if (remaining <=? dt)%nat then callback (setTimer None st)
      else setTimer (Some (remaining - dt)%nat) st
  | None => st
  end.

(** What happens to the component. *)
Inductive Event : Type :=
| SliderChange (value : Z)
| SwitchChange (checked : bool)
| CellEdit (value : Z) (bytePosition : nat)
| CellFocus (value : Z)
| Elapse (dt : nat)
| ReadSettled (id : nat) (o : Settled FileReadResult)
| DecodeSettled (id : nat) (o : Settled (gmap string JsVal)).

(** The props of the scroll control as the view renders it. *)
Module Slider.
Record SliderProps : Type := {
  min : Z;
  max : Z;
  value : Z;
  step : Z;
  vertical : bool;
  reverse : bool;
  tooltip_formatter : option Z -> string;
}.
End Slider.

Section Component.

(** [columns] is a constant of module HexEditView and [translate] comes
    from the localization hook; both are outside the sources and stay
    abstract. *)
Variable columns : Z.
Variable translate : string -> option string -> list (string * Thrown) -> string.
Variable props : HexEditViewProps.

Definition onHexValueChange (value : Z) (bytePosition : nat) (st : State) : State :=
  let modifyHexData := array_assign (hexData st) bytePosition value in
  setHexData modifyHexData st.

(** [onFilePositionChange(value)] sends the request ... *)
Definition onFilePositionChange (value : Z) (st : State) : State :=
  send (getDataInPosition (fileIndex props) value) st.

(** ... and this runs when its promise settles. The promise chain is
    discarded with [void] and has no [catch]: a rejection, or a throw
    inside the callback, goes nowhere. *)
Definition onFilePositionChange_settled
    (o : Settled (gmap string JsVal)) (st : State) : State :=
  match f ← wrap o; reduceBundle f with
  | Normal b => setPositionByteValues b st
  | Throw _ => st
  end.

(** [readFromPosition()] sends the request ... *)
Definition readFromPosition (st : State) : State :=
  send (readFile (fileIndex props) (fromPosition st)) st.

(** ... and this is its [then] / [catch] chain. *)
Definition readFromPosition_settled (o : Settled FileReadResult) (st : State) : State :=
  match res ← wrap o;
        s ← Base64.atob (file_data res);
        mret (Uint8Array_from s) with
  | Normal buff => setReadError false (setHexData (Some <$> buff) st)
  | Throw error =>
      notification "error"
        (translate "fileReadFailed" None [("error"%string, error)])
        (setReadError true st)
  end.

(** The tooltip formatter, memoized on [hexUpperCase]. *)
Definition formatter : option Z -> string :=
  if hexUpperCase props
  then fun value => formatterUpper (default 0 value)
  else fun value => formatterLower (default 0 value).

Definition onChange (value : Z) (st : State) : State := setFromPosition value st.

Definition onSwitchChange (checked : bool) (st : State) : State := setBigEndian checked st.

Definition render_Slider (st : State) : Slider.SliderProps :=
  {| Slider.min := 0; Slider.max := fileSize props;
     Slider.value := fromPosition st; Slider.step := columns;
     Slider.vertical := true; Slider.reverse := true;
     Slider.tooltip_formatter := formatter |}.

(** The event handlers, before the render that follows them. *)
Definition handle (ev : Event) (st : State) : State :=
  match ev with
  | SliderChange v => onChange v st
  | SwitchChange c => onSwitchChange c st
  | CellEdit v i => onHexValueChange v i st
  | CellFocus v => onFilePositionChange v st
  | Elapse dt => useDebounce_elapse readFromPosition dt st
  | ReadSettled id o =>
      match inflight st !! id with
      | Some (read_file _ _) => readFromPosition_settled o (settle id st)
      | _ => st
      end
  | DecodeSettled id o =>
      match inflight st !! id with
      | Some (get_data_in_position _ _) => onFilePositionChange_settled o (settle id st)
      | _ => st
      end
  end.

(** The render after a handler: [readFromPosition] is a [useCallback]
    over [fileIndex, fromPosition, notification, translate], of which
    only [fromPosition] can change here, and [useDebounce(readFromPosition, 100)]
    sees a new callback exactly then. *)
Definition rerender (old new : State) : State :=
  useDebounce 100 (bool_decide (fromPosition old ≠ fromPosition new)) new.

Definition step (st : State) (ev : Event) : State := rerender st (handle ev st).

Definition run (evs : list Event) (st : State) : State := foldl step st evs.

(** The state at mount. Modelled from the spec for the timer: the first
    render schedules the debounced read, which gives the read at offset 0
    of the spec's scenario. *)
Definition mount : State :=
  {| fromPosition := 0; hexData := []; positionByteValues := None;
     bigEndian := false; readError := false; debounceTimer := Some 100%nat;
     nextRequest := 0; inflight := ∅; calls := []; notifications := [] |}.

End Component.

End HextEditViewComponent.

Import HextEditViewComponent.

(** ** Vocabulary of the statements *)



(** A field that can be indexed: present, and neither [undefined] nor
    [null]. *)
Definition can_index (o : option JsVal) : bool :=
  match o with
  | None | Some VUndefined | Some VNull => false
  | Some _ => true
  end.

(** A window read fails when the backend rejects it or when the payload
    is not base64. *)
Definition read_fails (o : Settled FileReadResult) : bool :=
  match o with
  | Rejected _ => true
  | Fulfilled res =>
      match Base64.atob (file_data res) with
      | Throw _ => true
      | Normal _ => false
      end
  end.

(** The error the [catch] handler of the window read receives. *)
Definition read_error (o : Settled FileReadResult) : Thrown :=
  match o with
  | Rejected reason => ErrorObj reason
  | Fulfilled _ => InvalidCharacterError
  end.

Definition is_byte (v : Z) : Prop := 0 <= v <= 255.

Definition is_sextet (v : Z) : Prop := 0 <= v < 64.

Definition is_byte_cell (c : option Z) : Prop := exists v, c = Some v /\ is_byte v.

(** Events of the read path: everything but a cell edit. *)
Definition read_path (ev : Event) : bool :=
  match ev with
  | CellEdit _ _ => false
  | _ => true
  end.

(** A burst of scroll changes: a first value, then further values each
    preceded by the time elapsed since the previous one. *)
Definition burst_changes (v1 : Z) (more : list (nat * Z)) : list Event :=
  SliderChange v1 :: flat_map (fun p => [Elapse p.1; SliderChange p.2]) more.

(** The burst followed by a quiet period. *)
Definition burst (v1 : Z) (more : list (nat * Z)) (quiet : nat) : list Event :=
  burst_changes v1 more ++ [Elapse quiet].

Definition burst_values (v1 : Z) (more : list (nat * Z)) : list Z := v1 :: more.*2.

(** The offset the burst ends on. *)
Definition burst_end (v1 : Z) (more : list (nat * Z)) : Z := default v1 (last (more.*2)).

(** Every change of the burst comes before the settle interval has run
    out since the previous one. *)
Definition within_settle (more : list (nat * Z)) : bool :=
  forallb (fun p => (p.1 <? 100)%nat) more.

(** Each value of the burst differs from the offset it replaces. *)
Fixpoint all_changes (current : Z) (vs : list Z) : bool :=
  match vs with
  | [] => true
  | v :: vs' => negb (current =? v) && all_changes v vs'
  end.

(** ** Sample data *)

Definition describe (t : Thrown) : string :=
  match t with
  | ErrorObj message => ("Error: " ++ message)%string
  | TypeError => "TypeError"%string
  | InvalidCharacterError => "InvalidCharacterError"%string
  end.

Definition sample_translate (key : string) (fallback : option string)
    (params : list (string * Thrown)) : string :=
  fold_left (fun acc p => (acc ++ " " ++ describe p.2)%string) params key.

Definition sample_props : HexEditViewProps :=
  {| rows := 16; fileIndex := 1; fileSize := 256; hexUpperCase := false |}.

(** A bundle as the backend could answer for an offset: the byte value as
    text, and character fields of one or two units. *)
Definition sample_bundle (offset : Z) : gmap string JsVal :=
  list_to_map
    [("value_u8"%string, VString (js_string (formatterUpper offset)));
     ("char_ascii"%string, VString (js_string "a"));
     ("char_le_utf8"%string, VArray [VString (js_string "a"); VString (js_string "b")]);
     ("char_le_utf16"%string, VString [8364%N; 98%N]);
     ("char_le_utf32"%string, VString [55357%N; 56832%N]);
     ("char_be_utf8"%string, VString (js_string "ef"));
     ("char_be_utf16"%string, VArray [VString [8364%N]]);
     ("char_be_utf32"%string, VArray [])].

(** The same bundle with each multi-byte character field narrowed to its
    leading unit. *)
Definition sample_reduced (offset : Z) : gmap string JsVal :=
  list_to_map
    [("value_u8"%string, VString (js_string (formatterUpper offset)));
     ("char_ascii"%string, VString (js_string "a"));
     ("char_le_utf8"%string, VString (js_string "a"));
     ("char_le_utf16"%string, VString [8364%N]);
     ("char_le_utf32"%string, VString [55357%N]);
     ("char_be_utf8"%string, VString (js_string "e"));
     ("char_be_utf16"%string, VString [8364%N]);
     ("char_be_utf32"%string, VUndefined)].

(** Two focus requests answered in the opposite order. *)
Definition out_of_order (A B : Z) (idA idB : nat) (fA fB : gmap string JsVal) : list Event :=
  [CellFocus A; CellFocus B; DecodeSettled idB (Fulfilled fB); DecodeSettled idA (Fulfilled fA)].

(** What a fulfilled decode response installs when it is the only one. *)
Definition installs (f : gmap string JsVal) : option (gmap string JsVal) :=
  positionByteValues (onFilePositionChange_settled (Fulfilled f) mount).

(** ** The grid inputs *)

Module InputHex.

(** The props the view hands each [InputHex] cell; [className] is styling
    only. *)
Record InputHexProps : Type := {
  key : nat;
  numId : nat;
  onHexValueChange : Z -> nat -> State -> State;
  hexValue : option Z;
  bytePosition : nat;
  filePosition : Number;
  onFilePositionChange : Z -> State -> State;
  hexUpperCase : bool;
}.

End InputHex.

(** [hexData[i]]: a hole, or an index past the end, reads as [undefined]. *)
Definition array_get (l : list (option Z)) (i : nat) : option Z := default None (l !! i).

(** The loop of [inputsMemo]: [for (let i = 0; i < rows * columns; i++)]
    pushes one [InputHex] per cell of the grid. [fromPosition + i] is an
    addition of doubles. The count is that of a grid of at most 2^53
    cells, up to which the product is exact and the counter advances. *)
Definition inputsMemo (columns : Z) (props : HexEditViewProps) (st : State)
    : list InputHex.InputHexProps :=
  (fun i : nat =>
     {| InputHex.key := i;
        InputHex.numId := i;
        InputHex.onHexValueChange := onHexValueChange;
        InputHex.hexValue := array_get (hexData st) i;
        InputHex.bytePosition := i;
        InputHex.filePosition := number_add (fromPosition st) (Z.of_nat i);
        InputHex.onFilePositionChange := onFilePositionChange props;
        InputHex.hexUpperCase := hexUpperCase props |})
  <$> seq 0 (Z.to_nat (rows props * columns)).

(** ** More vocabulary *)

(** The file a backend command addresses. *)
Definition invoke_fileIndex (c : Invoke) : Z :=
  match c with
  | read_file fi _ => fi
  | get_data_in_position fi _ => fi
  end.

(** The one notification the view ever builds: the failed window read. *)
Definition is_read_failure_notice
    (translate : string -> option string -> list (string * Thrown) -> string)
    (n : string * string) : Prop :=
  exists error, n = ("error"%string, translate "fileReadFailed"%string None [("error"%string, error)]).

(** The notifications an event raises: one, for a pending window read
    that settles as a failure; none for any other event. *)
Definition notices_raised
    (translate : string -> option string -> list (string * Thrown) -> string)
    (ev : Event) (st : State) : list (string * string) :=
  match ev with
  | ReadSettled id o =>
      match inflight st !! id with
      | Some (read_file _ _) =>
          if read_fails o
          then [("error"%string,
                 translate "fileReadFailed"%string None [("error"%string, read_error o)])]
          else []
      | _ => []
      end
  | _ => []
  end.

(** Two window reads, for offsets A and then B, each sent after its own
    quiet period and answered in the opposite order. *)
Definition stale_reads (A B : Z) (idA idB : nat)
    (oA oB : Settled FileReadResult) : list Event :=
  [SliderChange A; Elapse 100; SliderChange B; Elapse 100;
   ReadSettled idB oB; ReadSettled idA oA].

(** A character [atob] can neither skip, nor read, nor take as padding. *)
Definition is_foreign_char (c : ascii) : bool :=
  negb (Base64.is_ascii_whitespace c) && negb (Ascii.eqb c "=")
  && match Base64.b64_value c with Some _ => false | None => true end.

(** The commands an event makes the view send: a cell focus asks for the
    decoded bundle, the debounce timer running out asks for the window. *)
Definition commands_sent (props : HexEditViewProps) (ev : Event) (st : State) : list Invoke :=
  match ev with
  | CellFocus v => [get_data_in_position (fileIndex props) v]
  | Elapse dt =>
      match debounceTimer st with
      | Some remaining =>
          if (remaining <=? dt)%nat then [read_file (fileIndex props) (fromPosition st)] else []
      | None => []
      end
  | _ => []
  end.

(** ** The display formatter *)

(** C9: for both values of the case flag the formatter renders an absent
    value exactly as it renders zero, and that text is "00". *)
Theorem C9_formatter_absent_as_zero :
  forall props : HexEditViewProps,
    formatter props None = formatter props (Some 0) /\
    formatter props None = "00"%string.
Proof.
  intros [r fi fs up]. unfold formatter. simpl.
  destruct up; split; reflexivity.
Qed.

(** ** The window-offset setter *)

Lemma onChange_fromPosition v st : fromPosition (onChange v st) = v.
Proof. reflexivity. Qed.

(** C3, as the spec states it, fails: the setter stores a value above the
    file size, and a negative one, as they are. *)
Lemma C3_setter_stores_out_of_range :
  fromPosition (onChange (fileSize sample_props + 1000) mount) <> fileSize sample_props /\
  fromPosition (onChange (-5) mount) <> 0.
Proof. split; vm_compute; discriminate. Qed.

(** C3, amended: the setter stores every value unchanged and touches
    nothing else; the range from 0 to the file size is only handed to the
    scroll control as its minimum and maximum, with the column count as
    step, so the offset is within the range exactly when the value is. *)
Theorem C3_setter_stores_value columns (props : HexEditViewProps) (v : Z) (st : State) :
  let st' := onChange v st in
  fromPosition st' = v /\
  (0 <= fromPosition st' <= fileSize props <-> 0 <= v <= fileSize props) /\
  hexData st' = hexData st /\
  Slider.min (render_Slider columns props st') = 0 /\
  Slider.max (render_Slider columns props st') = fileSize props /\
  Slider.step (render_Slider columns props st') = columns /\
  Slider.value (render_Slider columns props st') = v.
Proof. simpl. repeat split; tauto. Qed.

(** ** The step function *)

Section Steps.

Variable translate : string -> option string -> list (string * Thrown) -> string.
Variable props : HexEditViewProps.

(** A handler that leaves the window offset alone does not re-arm the
    debounce timer. *)
Lemma step_same_offset st ev :
  fromPosition (handle translate props ev st) = fromPosition st ->
  step translate props st ev = handle translate props ev st.
Proof.
  intros H. unfold step, rerender, useDebounce.
  rewrite bool_decide_eq_false_2; [reflexivity | congruence].
Qed.

Lemma onFilePositionChange_settled_fromPosition o st :
  fromPosition (onFilePositionChange_settled o st) = fromPosition st.
Proof.
  unfold onFilePositionChange_settled.
  destruct (_ ≫= _); reflexivity.
Qed.

Lemma readFromPosition_settled_fromPosition o st :
  fromPosition (readFromPosition_settled translate o st) = fromPosition st.
Proof.
  unfold readFromPosition_settled.
  destruct (_ ≫= _); reflexivity.
Qed.

Lemma useDebounce_elapse_fromPosition dt st :
  fromPosition (useDebounce_elapse (readFromPosition props) dt st) = fromPosition st.
Proof.
  unfold useDebounce_elapse.
  destruct (debounceTimer st) as [r|]; [|reflexivity].
  destruct (r <=? dt)%nat; reflexivity.
Qed.

(** Only the scroll control moves the window offset. *)
Lemma handle_fromPosition ev st :
  (forall v, ev <> SliderChange v) ->
  fromPosition (handle translate props ev st) = fromPosition st.
Proof.
  intros Hev. destruct ev as [v|c|v i|v|dt|id o|id o]; simpl.
  - destruct (Hev v); reflexivity.
  - reflexivity.
  - reflexivity.
  - reflexivity.
  - apply useDebounce_elapse_fromPosition.
  - destruct (inflight st !! id) as [[? ?|? ?]|]; try reflexivity.
    rewrite readFromPosition_settled_fromPosition; reflexivity.
  - destruct (inflight st !! id) as [[? ?|? ?]|]; try reflexivity.
    rewrite onFilePositionChange_settled_fromPosition; reflexivity.
Qed.

Lemma step_not_slider st ev :
  (forall v, ev <> SliderChange v) ->
  step translate props st ev = handle translate props ev st.
Proof. intros H. apply step_same_offset, handle_fromPosition, H. Qed.

Lemma run_cons ev evs st :
  run translate props (ev :: evs) st = run translate props evs (step translate props st ev).
Proof. reflexivity. Qed.

Lemma run_nil st : run translate props [] st = st.
Proof. reflexivity. Qed.

Lemma run_app evs1 evs2 st :
  run translate props (evs1 ++ evs2) st
  = run translate props evs2 (run translate props evs1 st).
Proof. unfold run. apply foldl_app. Qed.

Lemma step_CellEdit st v i :
  step translate props st (CellEdit v i) = onHexValueChange v i st.
Proof. apply step_not_slider. discriminate. Qed.

Lemma step_CellFocus st v :
  step translate props st (CellFocus v)
  = send (get_data_in_position (fileIndex props) v) st.
Proof. apply step_not_slider. discriminate. Qed.

Lemma step_Elapse st dt :
  step translate props st (Elapse dt) = useDebounce_elapse (readFromPosition props) dt st.
Proof. apply step_not_slider. discriminate. Qed.

Lemma step_DecodeSettled st id o fi pos :
  inflight st !! id = Some (get_data_in_position fi pos) ->
  step translate props st (DecodeSettled id o)
  = onFilePositionChange_settled o (settle id st).
Proof.
  intros H. rewrite step_not_slider by discriminate.
  cbn [handle]. rewrite H. reflexivity.
Qed.

Lemma step_ReadSettled st id o fi pos :
  inflight st !! id = Some (read_file fi pos) ->
  step translate props st (ReadSettled id o)
  = readFromPosition_settled translate o (settle id st).
Proof.
  intros H. rewrite step_not_slider by discriminate.
  cbn [handle]. rewrite H. reflexivity.
Qed.

(** A scroll change to a new offset stores it and re-arms the timer. *)
Lemma step_SliderChange st v :
  v <> fromPosition st ->
  step translate props st (SliderChange v) = setTimer (Some 100%nat) (onChange v st).
Proof.
  intros H. unfold step, rerender, useDebounce. cbn [handle].
  rewrite onChange_fromPosition, bool_decide_eq_true_2; [reflexivity | congruence].
Qed.

Lemma onFilePositionChange_settled_inflight o st :
  inflight (onFilePositionChange_settled o st) = inflight st.
Proof.
  unfold onFilePositionChange_settled.
  destruct (_ ≫= _); reflexivity.
Qed.

End Steps.

(** ** The edit buffer *)

Lemma array_assign_in_range (l : list (option Z)) (i : nat) (v : Z) :
  (i < length l)%nat -> array_assign l i v = <[i := Some v]> l.
Proof. intros H. unfold array_assign. rewrite decide_True; [reflexivity | exact H]. Qed.

(** C8: for an index inside the buffer, a cell edit replaces the entry at
    that index and no other, keeps the length, and leaves the rest of the
    component as it was: no read is scheduled or sent, nothing is sent to
    the backend at all. *)
Theorem C8_edit_replaces_one_entry translate (props : HexEditViewProps)
    (st : State) (i : nat) (v : Z) :
  (i < length (hexData st))%nat ->
  let st' := step translate props st (CellEdit v i) in
  hexData st' !! i = Some (Some v) /\
  (forall j : nat, j <> i -> hexData st' !! j = hexData st !! j) /\
  length (hexData st') = length (hexData st) /\
  calls st' = calls st /\
  inflight st' = inflight st /\
  debounceTimer st' = debounceTimer st /\
  fromPosition st' = fromPosition st /\
  positionByteValues st' = positionByteValues st /\
  readError st' = readError st /\
  notifications st' = notifications st.
Proof.
  intros Hi st'. subst st'.
  rewrite step_not_slider by discriminate.
  simpl. unfold onHexValueChange. simpl.
  rewrite array_assign_in_range by exact Hi.
  split; [apply list_lookup_insert_eq; exact Hi|].
  split; [intros j Hj; apply list_lookup_insert_ne; congruence|].
  split; [apply length_insert|].
  repeat split.
Qed.

Lemma C8_edit_example :
  let st := setHexData [Some 1; Some 2; Some 3; Some 4; Some 5] mount in
  let st' := step sample_translate sample_props st (CellEdit 255 3) in
  hexData st' !! 3%nat = Some (Some 255) /\
  (forall j : nat, j <> 3%nat -> hexData st' !! j = hexData st !! j) /\
  length (hexData st') = length (hexData st) /\
  calls st' = calls st /\
  inflight st' = inflight st /\
  debounceTimer st' = debounceTimer st /\
  fromPosition st' = fromPosition st /\
  positionByteValues st' = positionByteValues st /\
  readError st' = readError st /\
  notifications st' = notifications st.
Proof.
  apply (C8_edit_replaces_one_entry sample_translate sample_props
           (setHexData [Some 1; Some 2; Some 3; Some 4; Some 5] mount) 3 255).
  simpl. lia.
Defined.

(** ** The position decoder *)

Lemma bind_normal {A B} (c : Completion A) (k : A -> Completion B) (b : B) :
  c ≫= k = Normal b -> exists a, c = Normal a /\ k a = Normal b.
Proof. destruct c as [a|t]; simpl; [eauto | discriminate]. Qed.

(** [o[0]] returns only on a value that can be indexed. *)
Lemma index0_normal (o : option JsVal) (u : JsVal) :
  index0 o = Normal u -> exists v, o = Some v /\ can_index o = true.
Proof.
  destruct o as [v|]; [|discriminate].
  destruct v; simpl; intros H; try discriminate; eexists; split; reflexivity.
Qed.


Lemma index0_can_index (o : option JsVal) :
  can_index o = true -> exists u, index0 o = Normal u.
Proof.
  destruct o as [v|]; [|discriminate].
  destruct v as [| | | |[|c s]|[|x xs]|]; simpl; intros H;
    try discriminate; eexists; reflexivity.
Qed.


(** The object literal evaluates when the six fields can be indexed. *)
Lemma reduceBundle_total (f : gmap string JsVal) :
  forallb (fun k => can_index (f !! k)) charFields = true ->
  exists b, reduceBundle f = Normal b.
Proof.
  simpl. rewrite !andb_true_iff.
  intros (H1 & H2 & H3 & H4 & H5 & H6 & _).
  apply index0_can_index in H1 as (u1 & E1), H2 as (u2 & E2),
    H3 as (u3 & E3), H4 as (u4 & E4), H5 as (u5 & E5), H6 as (u6 & E6).
  unfold reduceBundle. rewrite E1, E2, E3, E4, E5, E6. simpl. eauto.
Qed.




(** ** Out-of-order decode responses *)

(** C1, as the spec states it, fails: with requests for offsets 10 and 20
    and the response for 10 arriving last, the displayed bundle is not the
    one for offset 20. *)
Lemma C1_late_response_overwrites :
  positionByteValues
    (run sample_translate sample_props
       (out_of_order 10 20 0 1 (sample_bundle 10) (sample_bundle 20)) mount)
  <> installs (sample_bundle 20).
Proof.
  intros H.
  apply (f_equal (fun o : option (gmap string JsVal) => o ≫= (.!! "value_u8"%string))) in H.
  vm_compute in H. discriminate H.
Qed.

(** C1, amended: the response that arrives last is the one displayed,
    when it is one the view can narrow. With requests issued for offset A
    and then for offset B, and the response for A arriving after the
    response for B, the displayed bundle is the one for A, provided each
    of the six character fields of that response is present and neither
    undefined nor null: such a response narrows to a bundle and is
    installed on arrival, whatever was requested since. *)
Theorem C1_last_arrived_wins translate (props : HexEditViewProps) (st : State)
    (A B : Z) (fA fB : gmap string JsVal) :
  forallb (fun k => can_index (fA !! k)) charFields = true ->
  exists bA,
    reduceBundle fA = Normal bA /\
    positionByteValues
      (run translate props
         (out_of_order A B (nextRequest st) (S (nextRequest st)) fA fB) st)
    = Some bA /\
    (forall (s : State) (id : nat) (fi pos : Z),
       inflight s !! id = Some (get_data_in_position fi pos) ->
       positionByteValues (step translate props s (DecodeSettled id (Fulfilled fA))) = Some bA).
Proof.
  intros Hidx. destruct (reduceBundle_total fA Hidx) as [bA HA].
  exists bA. split; [exact HA|]. split.
  - unfold out_of_order.
    rewrite !run_cons, run_nil, !step_CellFocus.
    set (gA := get_data_in_position (fileIndex props) A).
    set (gB := get_data_in_position (fileIndex props) B).
    assert (E1 : inflight (send gB (send gA st)) !! S (nextRequest st) = Some gB)
      by apply lookup_insert_eq.
    rewrite (step_DecodeSettled translate props _ _ _ _ _ E1).
    set (s3 := onFilePositionChange_settled _ _).
    assert (E2 : inflight s3 !! nextRequest st = Some gA).
    { subst s3. rewrite onFilePositionChange_settled_inflight.
      cbn [settle send inflight nextRequest].
      rewrite lookup_delete_ne, lookup_insert_ne by lia. apply lookup_insert_eq. }
    rewrite (step_DecodeSettled translate props _ _ _ _ _ E2).
    unfold onFilePositionChange_settled at 1. cbn [wrap mbind completion_bind].
    rewrite HA. reflexivity.
  - intros s id fi pos Hin.
    rewrite (step_DecodeSettled translate props _ _ _ _ _ Hin).
    unfold onFilePositionChange_settled. cbn [wrap mbind completion_bind].
    rewrite HA. reflexivity.
Qed.

(** The amended statement on the sample bundles for offsets 10 and 20. *)
Lemma C1_sample_order_example :
  forallb (fun k => can_index (sample_bundle 10 !! k)) charFields = true /\
  positionByteValues
    (run sample_translate sample_props
       (out_of_order 10 20 0 1 (sample_bundle 10) (sample_bundle 20)) mount)
  = Some (sample_reduced 10).
Proof.
  assert (H : forallb (fun k => can_index (sample_bundle 10 !! k)) charFields = true)
    by (vm_compute; reflexivity).
  split; [exact H|].
  destruct (C1_last_arrived_wins sample_translate sample_props mount 10 20
              (sample_bundle 10) (sample_bundle 20) H) as (bA & H1 & H2 & _).
  assert (E : reduceBundle (sample_bundle 10) = Normal (sample_reduced 10))
    by (vm_compute; reflexivity).
  assert (Eb : bA = sample_reduced 10) by congruence.
  rewrite <- Eb. exact H2.
Defined.

(** ** A failed decode *)

(** C2 at a rejected decode request: the displayed bundle stays, but the
    notification sink is not called and the error flag is not touched;
    the rejection is dropped. *)
Theorem C2_decode_rejection_unnotified translate (props : HexEditViewProps)
    (st : State) (offset : Z) (reason : string) :
  let st' := run translate props
               [CellFocus offset; DecodeSettled (nextRequest st) (Rejected reason)] st in
  positionByteValues st' = positionByteValues st /\
  notifications st' = notifications st /\
  readError st' = readError st /\
  hexData st' = hexData st.
Proof.
  cbv zeta. rewrite !run_cons, run_nil, step_CellFocus.
  set (g := get_data_in_position (fileIndex props) offset).
  assert (E : inflight (send g st) !! nextRequest st = Some g) by apply lookup_insert_eq.
  rewrite (step_DecodeSettled translate props _ _ _ _ _ E).
  repeat split.
Qed.

(** ** A failed window read *)

(** C4: when a window read fails, by rejection or by a payload that is not
    base64, the buffer is exactly the previous one, the error flag is set,
    and the notification sink receives one error-level message built from
    the error; for a rejection that error is the wrapper's [Error] around
    the backend's reason. Nothing else changes and no read is re-sent. *)
Theorem C4_failed_read_keeps_buffer translate (props : HexEditViewProps)
    (st : State) (id : nat) (o : Settled FileReadResult) (fi pos : Z) :
  inflight st !! id = Some (read_file fi pos) ->
  read_fails o = true ->
  let st' := step translate props st (ReadSettled id o) in
  hexData st' = hexData st /\
  readError st' = true /\
  notifications st'
    = notifications st
      ++ [("error"%string, translate "fileReadFailed"%string None [("error"%string, read_error o)])] /\
  (forall reason, o = Rejected reason -> read_error o = ErrorObj reason) /\
  fromPosition st' = fromPosition st /\
  positionByteValues st' = positionByteValues st /\
  calls st' = calls st /\
  debounceTimer st' = debounceTimer st.
Proof.
  intros Hin Hfail st'. subst st'.
  rewrite (step_ReadSettled translate props _ _ _ _ _ Hin).
  unfold readFromPosition_settled.
  destruct o as [res|reason]; cbn [wrap mbind completion_bind read_fails read_error] in *.
  - destruct (Base64.atob (file_data res)) as [s|t] eqn:E; [discriminate|].
    assert (t = InvalidCharacterError) as ->.
    { unfold Base64.atob in E. destruct (Base64.atob_chars _); congruence. }
    repeat split. intros reason; discriminate.
  - repeat split. intros r [= ->]. reflexivity.
Qed.

Lemma C4_rejected_read_example :
  let st := setHexData [Some 7; Some 8]
              (readFromPosition sample_props (setTimer None mount)) in
  let st' := step sample_translate sample_props st (ReadSettled 0 (Rejected "file closed")) in
  hexData st' = [Some 7; Some 8] /\
  readError st' = true /\
  notifications st' = [("error", "fileReadFailed Error: file closed")]%string.
Proof.
  pose proof (C4_failed_read_keeps_buffer sample_translate sample_props
    (setHexData [Some 7; Some 8] (readFromPosition sample_props (setTimer None mount)))
    0 (Rejected "file closed") 1 0 eq_refl eq_refl) as (H1 & H2 & H3 & _).
  cbv zeta. rewrite H1, H2, H3. repeat split.
Defined.

(** ** Byte range of the buffer *)

Lemma ToUint8_byte (n : Z) : is_byte (ToUint8 n).
Proof. unfold is_byte, ToUint8. pose proof (Z.mod_pos_bound n 256). lia. Qed.

Lemma Uint8Array_from_cells (s : string) :
  Forall is_byte_cell (Some <$> Uint8Array_from s).
Proof.
  unfold Uint8Array_from. induction (list_ascii_of_string s) as [|c cs IH]; simpl.
  - constructor.
  - constructor; [|exact IH]. eexists. split; [reflexivity|]. apply ToUint8_byte.
Qed.

Section ReadPath.

Variable translate : string -> option string -> list (string * Thrown) -> string.
Variable props : HexEditViewProps.

(** Whatever the buffer held, a window read that settles leaves bytes or
    leaves the buffer alone. *)
Lemma readFromPosition_settled_hexData o st :
  hexData (readFromPosition_settled translate o st) = hexData st \/
  Forall is_byte_cell (hexData (readFromPosition_settled translate o st)).
Proof.
  unfold readFromPosition_settled.
  destruct o as [res|reason]; cbn [wrap mbind completion_bind].
  - destruct (Base64.atob (file_data res)) as [s|t]; cbn [mbind completion_bind mret completion_ret].
    + right. apply Uint8Array_from_cells.
    + left. reflexivity.
  - left. reflexivity.
Qed.

Lemma successful_read_installs_bytes o st :
  read_fails o = false ->
  Forall is_byte_cell (hexData (readFromPosition_settled translate o st)).
Proof.
  unfold readFromPosition_settled, read_fails.
  destruct o as [res|reason]; [|discriminate].
  cbn [wrap mbind completion_bind].
  destruct (Base64.atob (file_data res)) as [s|t]; [|discriminate].
  intros _. apply Uint8Array_from_cells.
Qed.

Lemma step_hexData st ev :
  hexData (step translate props st ev) = hexData (handle translate props ev st).
Proof. unfold step, rerender, useDebounce. destruct (bool_decide _); reflexivity. Qed.

Lemma step_read_path_bytes st ev :
  read_path ev = true ->
  Forall is_byte_cell (hexData st) ->
  Forall is_byte_cell (hexData (step translate props st ev)).
Proof.
  intros Hev Hst. rewrite step_hexData.
  destruct ev as [v|c|v i|v|dt|id o|id o]; cbn [handle]; try exact Hst.
  - discriminate Hev.
  - unfold useDebounce_elapse. destruct (debounceTimer st) as [r|]; [|exact Hst].
    destruct (r <=? dt)%nat; exact Hst.
  - destruct (inflight st !! id) as [[? ?|? ?]|]; try exact Hst.
    destruct (readFromPosition_settled_hexData o (settle id st)) as [-> | H];
      [exact Hst | exact H].
  - destruct (inflight st !! id) as [[? ?|? ?]|]; try exact Hst.
    unfold onFilePositionChange_settled. destruct (_ ≫= _); exact Hst.
Qed.

Lemma run_read_path_bytes evs st :
  forallb read_path evs = true ->
  Forall is_byte_cell (hexData st) ->
  Forall is_byte_cell (hexData (run translate props evs st)).
Proof.
  revert st. induction evs as [|ev evs IH]; intros st Hevs Hst.
  - exact Hst.
  - cbn [forallb] in Hevs. apply andb_true_iff in Hevs as [Hev Hevs].
    rewrite run_cons. apply IH; [exact Hevs|].
    apply step_read_path_bytes; assumption.
Qed.

End ReadPath.

(** C10: after every successful window read, whatever the buffer held
    before (edited cells, holes, values that are no bytes), the installed
    buffer is the decoded payload and nothing else, each entry an integer
    from 0 to 255 after the coercion of the [Uint8Array]; and every state
    the read path then leads to (scrolling, timers, reads settling either
    way, focus and decode events), from there as from mount, has a buffer
    of such entries only. *)
Theorem C10_installed_buffer_bytes translate (props : HexEditViewProps)
    (st : State) (id : nat) (fi pos : Z) (o : Settled FileReadResult) (evs : list Event) :
  inflight st !! id = Some (read_file fi pos) ->
  read_fails o = false ->
  forallb read_path evs = true ->
  let st' := step translate props st (ReadSettled id o) in
  (exists res s, o = Fulfilled res /\ Base64.atob (file_data res) = Normal s /\
     hexData st' = Some <$> Uint8Array_from s) /\
  Forall is_byte_cell (hexData st') /\
  Forall is_byte_cell (hexData (run translate props evs st')) /\
  Forall is_byte_cell (hexData (run translate props evs mount)).
Proof.
  intros Hin Hok Hevs st'.
  assert (Hst' : Forall is_byte_cell (hexData st')).
  { subst st'. rewrite (step_ReadSettled translate props _ _ _ _ _ Hin).
    apply successful_read_installs_bytes, Hok. }
  split; [|split; [exact Hst'|split]].
  - subst st'. rewrite (step_ReadSettled translate props _ _ _ _ _ Hin).
    unfold read_fails in Hok. destruct o as [res|reason]; [|discriminate].
    destruct (Base64.atob (file_data res)) as [s|t] eqn:E; [|discriminate].
    exists res, s. split; [reflexivity|]. split; [exact E|].
    unfold readFromPosition_settled. cbn [wrap mbind completion_bind].
    rewrite E. reflexivity.
  - apply run_read_path_bytes; assumption.
  - apply run_read_path_bytes; [exact Hevs | constructor].
Qed.

(** A read answered after an edit that left holes and a value above 255,
    then the window moves on and the next read is rejected. *)
Lemma C10_sample_trace_example :
  let st := run sample_translate sample_props [Elapse 100; CellEdit 300 2] mount in
  let o := Fulfilled {| file_index := 1; file_data := "AQID/wA=" |} in
  let evs := [SliderChange 16; Elapse 100; ReadSettled 1 (Rejected "closed")] in
  let st' := step sample_translate sample_props st (ReadSettled 0 o) in
  hexData st = [None; None; Some 300] /\
  hexData st' = [Some 1; Some 2; Some 3; Some 255; Some 0] /\
  Forall is_byte_cell (hexData st') /\
  Forall is_byte_cell (hexData (run sample_translate sample_props evs st')) /\
  Forall is_byte_cell (hexData (run sample_translate sample_props evs mount)).
Proof.
  cbv zeta. split; [vm_compute; reflexivity|]. split; [vm_compute; reflexivity|].
  apply (C10_installed_buffer_bytes sample_translate sample_props
           (run sample_translate sample_props [Elapse 100; CellEdit 300 2] mount)
           0 1 0 (Fulfilled {| file_index := 1; file_data := "AQID/wA=" |})
           [SliderChange 16; Elapse 100; ReadSettled 1 (Rejected "closed")]).
  - reflexivity.
  - reflexivity.
  - reflexivity.
Defined.

(** ** Debounced window reads *)

Section Debounce.

Variable translate : string -> option string -> list (string * Thrown) -> string.
Variable props : HexEditViewProps.

Lemma burst_changes_cons v1 dt v2 more :
  burst_changes v1 ((dt, v2) :: more) = SliderChange v1 :: Elapse dt :: burst_changes v2 more.
Proof. reflexivity. Qed.

(** While the changes keep coming the timer is re-armed and nothing is
    sent. *)
Lemma run_burst_changes more : forall v1 st,
  all_changes (fromPosition st) (burst_values v1 more) = true ->
  within_settle more = true ->
  let st' := run translate props (burst_changes v1 more) st in
  fromPosition st' = burst_end v1 more /\
  debounceTimer st' = Some 100%nat /\
  calls st' = calls st /\
  hexData st' = hexData st.
Proof.
  induction more as [|[dt v2] more IH]; intros v1 st Hch Hin; cbv zeta.
  - unfold burst_changes. cbn [flat_map]. rewrite run_cons, run_nil.
    cbn in Hch. rewrite andb_true_r, negb_true_iff, Z.eqb_neq in Hch.
    rewrite step_SliderChange by congruence. repeat split.
  - rewrite burst_changes_cons, !run_cons.
    cbn [burst_values fmap list_fmap all_changes snd] in Hch.
    apply andb_true_iff in Hch as [H1 Hch].
    rewrite negb_true_iff, Z.eqb_neq in H1.
    cbn [within_settle forallb fst] in Hin. apply andb_true_iff in Hin as [Hdt Hin].
    apply Nat.ltb_lt in Hdt.
    rewrite step_SliderChange by congruence.
    rewrite step_Elapse. unfold useDebounce_elapse. cbn [debounceTimer setTimer].
    destruct (Nat.leb_spec 100 dt) as [Hle|_]; [lia|].
    specialize (IH v2 (setTimer (Some (100 - dt)%nat) (setTimer (Some 100%nat) (onChange v1 st)))).
    cbv zeta in IH. destruct IH as (E1 & E2 & E3 & E4); [exact Hch | exact Hin |].
    rewrite E1, E2, E3, E4. repeat split.
    unfold burst_end. cbn [fmap list_fmap snd]. rewrite last_cons.
    destruct (last (more.*2)); reflexivity.
Qed.

End Debounce.

(** C7: a burst of scroll changes, each to a new offset and each arriving
    before the settle interval of 100 time units has run out since the
    previous one, followed by a quiet period of at least the interval,
    sends exactly one window read, for the offset the burst ended on; no
    read is sent while the burst lasts nor before the interval is over. *)
Theorem C7_burst_sends_one_read translate (props : HexEditViewProps) (st : State)
    (v1 : Z) (more : list (nat * Z)) (quiet : nat) :
  all_changes (fromPosition st) (burst_values v1 more) = true ->
  within_settle more = true ->
  (100 <= quiet)%nat ->
  calls (run translate props (burst v1 more quiet) st)
    = calls st ++ [read_file (fileIndex props) (burst_end v1 more)] /\
  calls (run translate props (burst_changes v1 more) st) = calls st /\
  (forall early : nat, (early < 100)%nat ->
     calls (run translate props (burst v1 more early) st) = calls st).
Proof.
  intros Hch Hin Hq.
  destruct (run_burst_changes translate props more v1 st Hch Hin) as (E1 & E2 & E3 & _).
  split; [|split; [exact E3|]].
  - unfold burst. rewrite run_app, run_cons, run_nil, step_Elapse.
    unfold useDebounce_elapse. rewrite E2.
    destruct (Nat.leb_spec 100 quiet) as [_|Hlt]; [|lia].
    unfold readFromPosition, readFile. cbn [send calls setTimer fromPosition].
    rewrite E1, E3. reflexivity.
  - intros early He. unfold burst. rewrite run_app, run_cons, run_nil, step_Elapse.
    unfold useDebounce_elapse. rewrite E2.
    destruct (Nat.leb_spec 100 early) as [Hle|_]; [lia|].
    exact E3.
Qed.

Lemma C7_sample_burst_example :
  let st := run sample_translate sample_props [Elapse 100] mount in
  calls st = [read_file 1 0] /\
  calls (run sample_translate sample_props
           (burst 16 [(30%nat, 32); (99%nat, 48); (0%nat, 64)] 100) st)
    = [read_file 1 0; read_file 1 64].
Proof.
  split; [reflexivity|].
  apply (C7_burst_sends_one_read sample_translate sample_props
           (run sample_translate sample_props [Elapse 100] mount)
           16 [(30%nat, 32); (99%nat, 48); (0%nat, 64)] 100).
  - reflexivity.
  - reflexivity.
  - lia.
Defined.

(** ** The transport encoding read back *)

Section Base64Facts.

Import Base64.

Example btoa_sample : btoa [1; 2; 3; 255; 0] = "AQID/wA="%string.
Proof. reflexivity. Qed.

Example atob_padded : atob_chars (list_ascii_of_string "AQID/w==") = Some [1; 2; 3; 255].
Proof. reflexivity. Qed.

Example atob_unpadded : atob_chars (list_ascii_of_string "AQID /w") = Some [1; 2; 3; 255].
Proof. reflexivity. Qed.

Example atob_bad_length : atob_chars (list_ascii_of_string "AQID/") = None.
Proof. reflexivity. Qed.

Example atob_bad_padding : atob_chars (list_ascii_of_string "AQID/w=") = None.
Proof. reflexivity. Qed.

(** Induction three bytes at a time, the way the encoder consumes them. *)
Lemma list_ind3 {A} (P : list A -> Prop) :
  P [] -> (forall a, P [a]) -> (forall a b, P [a; b]) ->
  (forall a b c rest, P rest -> P (a :: b :: c :: rest)) ->
  forall l, P l.
Proof.
  intros H0 H1 H2 H3.
  fix IH 1. intros [|a [|b [|c rest]]]; [exact H0 | apply H1 | apply H2 |].
  apply H3, IH.
Qed.

(** An [or] of two numbers with no bit in common is their sum. *)
Lemma lor_disjoint (x y k : Z) :
  0 <= k -> x mod 2 ^ k = 0 -> 0 <= y < 2 ^ k -> Z.lor x y = x + y.
Proof.
  intros Hk Hx Hy.
  assert (Z.land x y = 0) as Hl.
  { apply Z.bits_inj'. intros n Hn. rewrite Z.land_spec, Z.bits_0.
    destruct (Z.lt_ge_cases n k) as [Hlt|Hge].
    - rewrite <- (Z.mod_pow2_bits_low x k n) by lia. rewrite Hx, Z.bits_0. reflexivity.
    - rewrite <- (Z.mod_small y (2 ^ k)) by lia.
      rewrite Z.mod_pow2_bits_high by lia. apply andb_false_r. }
  pose proof (Z.add_lor_land x y). lia.
Qed.

Lemma land_low (x k : Z) : 0 <= k -> Z.land x (2 ^ k - 1) = x mod 2 ^ k.
Proof. intros Hk. rewrite <- Z.land_ones by exact Hk. rewrite Z.ones_equiv. reflexivity. Qed.

Lemma land_3 x : Z.land x 3 = x mod 4.
Proof. apply (land_low x 2). lia. Qed.

Lemma land_15 x : Z.land x 15 = x mod 16.
Proof. apply (land_low x 4). lia. Qed.

Lemma land_63 x : Z.land x 63 = x mod 64.
Proof. apply (land_low x 6). lia. Qed.

Lemma land_255 x : Z.land x 255 = x mod 256.
Proof. apply (land_low x 8). lia. Qed.

(** The four sextets of three bytes, in arithmetic. *)
Lemma sextet1 a : Z.shiftr a 2 = a / 4.
Proof. apply (Z.shiftr_div_pow2 a 2). lia. Qed.

Lemma sextet2 a b : is_byte b ->
  Z.lor (Z.shiftl (Z.land a 3) 4) (Z.shiftr b 4) = (a mod 4) * 16 + b / 16.
Proof.
  intros Hb. unfold is_byte in Hb.
  rewrite land_3, (Z.shiftl_mul_pow2 _ 4), (Z.shiftr_div_pow2 b 4) by lia.
  apply (lor_disjoint _ _ 4); [lia | apply Z.mod_mul; lia |].
  change (2 ^ 4) with 16. Z.div_mod_to_equations. lia.
Qed.

Lemma sextet2_tail a : Z.shiftl (Z.land a 3) 4 = (a mod 4) * 16.
Proof. rewrite land_3, (Z.shiftl_mul_pow2 _ 4) by lia. reflexivity. Qed.

Lemma sextet3 b c : is_byte c ->
  Z.lor (Z.shiftl (Z.land b 15) 2) (Z.shiftr c 6) = (b mod 16) * 4 + c / 64.
Proof.
  intros Hc. unfold is_byte in Hc.
  rewrite land_15, (Z.shiftl_mul_pow2 _ 2), (Z.shiftr_div_pow2 c 6) by lia.
  apply (lor_disjoint _ _ 2); [lia | apply Z.mod_mul; lia |].
  change (2 ^ 2) with 4. change (2 ^ 6) with 64. Z.div_mod_to_equations. lia.
Qed.

Lemma sextet3_tail b : Z.shiftl (Z.land b 15) 2 = (b mod 16) * 4.
Proof. rewrite land_15, (Z.shiftl_mul_pow2 _ 2) by lia. reflexivity. Qed.

Lemma sextet4 c : Z.land c 63 = c mod 64.
Proof. apply land_63. Qed.

Lemma sextets_range (bs : list Z) : Forall is_byte bs -> Forall is_sextet (sextets bs).
Proof.
  induction bs as [|a|a b|a b c rest IH] using list_ind3; intros H.
  - constructor.
  - apply Forall_cons in H as [Ha _]. unfold is_byte in Ha. cbn [sextets].
    rewrite sextet1, sextet2_tail.
    repeat constructor; unfold is_sextet; Z.div_mod_to_equations; lia.
  - apply Forall_cons in H as [Ha H]. apply Forall_cons in H as [Hb _].
    cbn [sextets]. rewrite sextet1, sextet2, sextet3_tail by exact Hb.
    unfold is_byte in *.
    repeat constructor; unfold is_sextet; Z.div_mod_to_equations; lia.
  - apply Forall_cons in H as [Ha H]. apply Forall_cons in H as [Hb H].
    apply Forall_cons in H as [Hc H].
    cbn [sextets]. rewrite sextet1, sextet2, sextet3, sextet4 by assumption.
    unfold is_byte in *.
    repeat (constructor; [unfold is_sextet; Z.div_mod_to_equations; lia|]).
    apply IH, H.
Qed.

(** The bits of a group of sextets, in arithmetic. *)
Lemma group4 s1 s2 s3 s4 :
  is_sextet s1 -> is_sextet s2 -> is_sextet s3 -> is_sextet s4 ->
  Z.lor (Z.lor (Z.shiftl s1 18) (Z.shiftl s2 12)) (Z.lor (Z.shiftl s3 6) s4)
  = s1 * 262144 + s2 * 4096 + s3 * 64 + s4.
Proof.
  unfold is_sextet. intros H1 H2 H3 H4.
  rewrite (Z.shiftl_mul_pow2 s1 18), (Z.shiftl_mul_pow2 s2 12), (Z.shiftl_mul_pow2 s3 6) by lia.
  change (2 ^ 18) with 262144. change (2 ^ 12) with 4096. change (2 ^ 6) with 64.
  rewrite (lor_disjoint (s3 * 64) s4 6); [|lia|apply (Z.mod_mul s3 64); lia|lia].
  rewrite (lor_disjoint (s1 * 262144) (s2 * 4096) 18);
    [|lia|apply (Z.mod_mul s1 262144); lia|lia].
  rewrite (lor_disjoint _ _ 12); [lia | lia | | lia].
  change (2 ^ 12) with 4096. Z.div_mod_to_equations. lia.
Qed.

Lemma group3 s1 s2 s3 :
  is_sextet s1 -> is_sextet s2 -> is_sextet s3 ->
  Z.lor (Z.lor (Z.shiftl s1 12) (Z.shiftl s2 6)) s3 = s1 * 4096 + s2 * 64 + s3.
Proof.
  unfold is_sextet. intros H1 H2 H3.
  rewrite (Z.shiftl_mul_pow2 s1 12), (Z.shiftl_mul_pow2 s2 6) by lia.
  change (2 ^ 12) with 4096. change (2 ^ 6) with 64.
  rewrite (lor_disjoint (s1 * 4096) (s2 * 64) 12);
    [|lia|apply (Z.mod_mul s1 4096); lia|lia].
  rewrite (lor_disjoint _ _ 6); [lia | lia | | lia].
  change (2 ^ 6) with 64. Z.div_mod_to_equations. lia.
Qed.

Lemma group2 s1 s2 :
  is_sextet s1 -> is_sextet s2 -> Z.lor (Z.shiftl s1 6) s2 = s1 * 64 + s2.
Proof.
  unfold is_sextet. intros H1 H2.
  rewrite (Z.shiftl_mul_pow2 s1 6) by lia. change (2 ^ 6) with 64.
  apply (lor_disjoint _ _ 6); [lia | apply (Z.mod_mul s1 64); lia | lia].
Qed.

(** The decoder's grouping undoes the encoder's. *)
Lemma sextets_to_bytes_sextets (bs : list Z) :
  Forall is_byte bs -> sextets_to_bytes (sextets bs) = bs.
Proof.
  induction bs as [|a|a b|a b c rest IH] using list_ind3; intros H.
  - reflexivity.
  - pose proof (sextets_range _ H) as Hs. cbn [sextets] in *.
    apply Forall_cons in Hs as [S1 Hs]. apply Forall_cons in Hs as [S2 _].
    apply Forall_cons in H as [Ha _]. unfold is_byte in Ha.
    cbn [sextets_to_bytes]. cbv zeta.
    rewrite group2 by assumption.
    rewrite sextet1, sextet2_tail, land_255, (Z.shiftr_div_pow2 _ 4) by lia.
    change (2 ^ 4) with 16. f_equal. Z.div_mod_to_equations. lia.
  - pose proof (sextets_range _ H) as Hs. cbn [sextets] in *.
    apply Forall_cons in Hs as [S1 Hs]. apply Forall_cons in Hs as [S2 Hs].
    apply Forall_cons in Hs as [S3 _].
    apply Forall_cons in H as [Ha H]. apply Forall_cons in H as [Hb _].
    cbn [sextets_to_bytes]. cbv zeta.
    rewrite group3 by assumption.
    rewrite sextet1, sextet2, sextet3_tail by exact Hb.
    rewrite !land_255, (Z.shiftr_div_pow2 _ 2), (Z.shiftr_div_pow2 _ 8) by lia.
    change (2 ^ 2) with 4. change (2 ^ 8) with 256.
    unfold is_byte in *.
    f_equal; [|f_equal]; Z.div_mod_to_equations; lia.
  - pose proof (sextets_range _ H) as Hs. cbn [sextets] in *.
    apply Forall_cons in Hs as [S1 Hs]. apply Forall_cons in Hs as [S2 Hs].
    apply Forall_cons in Hs as [S3 Hs]. apply Forall_cons in Hs as [S4 _].
    apply Forall_cons in H as [Ha H]. apply Forall_cons in H as [Hb H].
    apply Forall_cons in H as [Hc H].
    cbn [sextets_to_bytes]. cbv zeta.
    rewrite group4 by assumption.
    rewrite sextet1, sextet2, sextet3, sextet4 by assumption.
    rewrite !land_255, (Z.shiftr_div_pow2 _ 16), (Z.shiftr_div_pow2 _ 8) by lia.
    change (2 ^ 16) with 65536. change (2 ^ 8) with 256.
    rewrite (IH H). unfold is_byte in *.
    f_equal; [|f_equal; [|f_equal]]; Z.div_mod_to_equations; lia.
Qed.

(** A check that holds on the sixty-four sextets holds on each. *)
Lemma sextet_cases (P : Z -> bool) :
  forallb P (seqZ 0 64) = true -> forall v, is_sextet v -> P v = true.
Proof.
  intros H v Hv. rewrite forallb_forall in H. apply H.
  apply list_elem_of_In, elem_of_seqZ. unfold is_sextet in Hv. lia.
Qed.

Lemma b64_value_char v : is_sextet v -> b64_value (b64_char v) = Some v.
Proof.
  intros Hv.
  pose proof (sextet_cases
    (fun v => match b64_value (b64_char v) with Some u => u =? v | None => false end)
    eq_refl v Hv) as H.
  cbv beta in H. destruct (b64_value (b64_char v)) as [u|]; [|discriminate].
  apply Z.eqb_eq in H. congruence.
Qed.

Lemma b64_char_not_whitespace v : is_sextet v -> is_ascii_whitespace (b64_char v) = false.
Proof.
  intros Hv. apply negb_true_iff.
  exact (sextet_cases (fun v => negb (is_ascii_whitespace (b64_char v))) eq_refl v Hv).
Qed.

Lemma b64_char_not_pad v : is_sextet v -> Ascii.eqb (b64_char v) "=" = false.
Proof.
  intros Hv. apply negb_true_iff.
  exact (sextet_cases (fun v => negb (Ascii.eqb (b64_char v) "=")) eq_refl v Hv).
Qed.

Lemma b64_values_chars (vs : list Z) :
  Forall is_sextet vs -> b64_values (b64_char <$> vs) = Some vs.
Proof.
  induction 1 as [|v vs Hv _ IH]; [reflexivity|].
  cbn [fmap list_fmap b64_values]. fold (b64_char <$> vs).
  rewrite b64_value_char, IH by exact Hv. reflexivity.
Qed.

Lemma padding_cases (bs : list Z) :
  padding bs = [] \/ padding bs = ["="%char] \/ padding bs = ["="%char; "="%char].
Proof. induction bs using list_ind3; cbn [padding]; tauto. Qed.

Lemma encode_length (bs : list Z) : (Z.of_nat (length (encode bs))) mod 4 = 0.
Proof.
  unfold encode. rewrite length_app, length_fmap.
  induction bs as [|a|a b|a b c rest IH] using list_ind3; try reflexivity.
  cbn [sextets padding length]. Z.div_mod_to_equations. lia.
Qed.

Lemma sextets_length (bs : list Z) : (Z.of_nat (length (sextets bs))) mod 4 <> 1.
Proof.
  induction bs as [|a|a b|a b c rest IH] using list_ind3; try discriminate.
  cbn [sextets length]. Z.div_mod_to_equations. lia.
Qed.

Lemma encode_no_whitespace (bs : list Z) :
  Forall is_byte bs ->
  List.filter (fun c => negb (is_ascii_whitespace c)) (encode bs) = encode bs.
Proof.
  intros H. apply forallb_filter_id. unfold encode. rewrite forallb_app.
  apply andb_true_iff. split.
  - apply sextets_range in H. induction H as [|v vs Hv _ IH]; [reflexivity|].
    cbn [fmap list_fmap forallb]. fold (b64_char <$> vs).
    rewrite b64_char_not_whitespace, IH by exact Hv. reflexivity.
  - destruct (padding_cases bs) as [-> | [-> | ->]]; reflexivity.
Qed.

(** Padding is removed from a body that holds none. *)
Lemma strip_padding_body (body pad : list ascii) :
  Forall (fun c => Ascii.eqb c "=" = false) body ->
  pad = [] \/ pad = ["="%char] \/ pad = ["="%char; "="%char] ->
  Z.of_nat (length (body ++ pad)) mod 4 = 0 ->
  strip_padding (body ++ pad) = body.
Proof.
  intros Hbody Hpad Hlen. unfold strip_padding.
  rewrite Hlen. cbn [Z.eqb]. rewrite rev_app_distr.
  assert (Hrev : Forall (fun c => Ascii.eqb c "=" = false) (rev body)).
  { apply Forall_forall. intros c Hc. rewrite Forall_forall in Hbody.
    apply Hbody. apply list_elem_of_In. apply list_elem_of_In in Hc.
    apply in_rev. exact Hc. }
  destruct Hpad as [-> | [-> | ->]]; cbn [rev app].
  - rewrite app_nil_r. destruct (rev body) as [|c1 r1] eqn:E; [reflexivity|].
    apply Forall_cons in Hrev as [-> _]. reflexivity.
  - cbn [Ascii.eqb Bool.eqb]. destruct (rev body) as [|c2 r2] eqn:E.
    + apply (f_equal (@rev ascii)) in E. rewrite rev_involutive in E. rewrite E. reflexivity.
    + apply Forall_cons in Hrev as [-> _]. rewrite <- E. apply rev_involutive.
  - cbn [Ascii.eqb Bool.eqb]. apply rev_involutive.
Qed.

Lemma strip_padding_encode (bs : list Z) :
  Forall is_byte bs -> strip_padding (encode bs) = b64_char <$> sextets bs.
Proof.
  intros H. apply strip_padding_body.
  - apply sextets_range in H. induction H as [|v vs Hv _ IH]; constructor.
    + apply b64_char_not_pad, Hv.
    + exact IH.
  - apply padding_cases.
  - apply encode_length.
Qed.

(** Decoding the transport encoding gives the transported bytes back. *)
Lemma atob_chars_encode (bs : list Z) :
  Forall is_byte bs -> atob_chars (encode bs) = Some bs.
Proof.
  intros H. unfold atob_chars. cbv zeta.
  rewrite encode_no_whitespace, strip_padding_encode by exact H.
  rewrite length_fmap.
  destruct (Z.eqb_spec (Z.of_nat (length (sextets bs)) mod 4) 1) as [E|_].
  - destruct (sextets_length bs E).
  - rewrite b64_values_chars by (apply sextets_range, H).
    cbn [fmap option_fmap option_map]. rewrite sextets_to_bytes_sextets by exact H.
    reflexivity.
Qed.

Lemma byte_of_char (b : Z) :
  is_byte b -> ToUint8 (codePointAt0 (ascii_of_N (Z.to_N b))) = b.
Proof.
  intros Hb. unfold is_byte in Hb. unfold ToUint8, codePointAt0.
  rewrite N_ascii_embedding by lia. rewrite Z2N.id by lia.
  apply Z.mod_small. lia.
Qed.

Lemma Uint8Array_from_atob (bs : list Z) :
  Forall is_byte bs ->
  (s ← atob (btoa bs); mret (Uint8Array_from s)) = Normal bs.
Proof.
  intros H. unfold atob, btoa.
  rewrite list_ascii_of_string_of_list_ascii, atob_chars_encode by exact H.
  cbn [mbind completion_bind mret completion_ret]. f_equal. unfold Uint8Array_from.
  rewrite list_ascii_of_string_of_list_ascii, map_map.
  induction H as [|b bs Hb _ IH]; [reflexivity|].
  cbn [map]. rewrite byte_of_char, IH by exact Hb. reflexivity.
Qed.

End Base64Facts.

(** ** A successful window read *)

(** C6: when a window read is answered with the transport encoding of a
    sequence of bytes, the buffer installed is that sequence itself, entry
    by entry: same length, same order, every entry from 0 to 255; it
    replaces the previous buffer whatever that held, and the error flag is
    cleared. *)
Theorem C6_read_installs_transported_bytes translate (props : HexEditViewProps)
    (st : State) (id : nat) (fi pos idx : Z) (bs : list Z) :
  inflight st !! id = Some (read_file fi pos) ->
  Forall is_byte bs ->
  let res := {| file_index := idx; file_data := Base64.btoa bs |} in
  let st' := step translate props st (ReadSettled id (Fulfilled res)) in
  hexData st' = Some <$> bs /\
  length (hexData st') = length bs /\
  (forall i : nat, hexData st' !! i = Some <$> bs !! i) /\
  Forall is_byte_cell (hexData st') /\
  readError st' = false.
Proof.
  intros Hin Hbs res st'. subst res st'.
  rewrite (step_ReadSettled translate props _ _ _ _ _ Hin).
  unfold readFromPosition_settled.
  cbn [wrap mbind completion_bind file_data].
  pose proof (Uint8Array_from_atob bs Hbs) as E.
  cbn [mbind completion_bind] in E. rewrite E.
  cbn [hexData setHexData setReadError readError].
  split; [reflexivity|]. split; [apply length_fmap|].
  split; [intros i; apply list_lookup_fmap|].
  split; [|reflexivity].
  apply Forall_fmap. eapply Forall_impl; [exact Hbs|].
  intros b Hb. exists b. split; [reflexivity | exact Hb].
Qed.

Lemma C6_sample_payload_example :
  let st := setHexData [Some 9; Some 9; Some 9; Some 9; Some 9; Some 9; Some 9]
              (readFromPosition sample_props (setTimer None mount)) in
  let res := {| file_index := 1; file_data := "AQID/wA=" |} in
  let st' := step sample_translate sample_props st (ReadSettled 0 (Fulfilled res)) in
  Forall is_byte [1; 2; 3; 255; 0] /\
  hexData st' = [Some 1; Some 2; Some 3; Some 255; Some 0].
Proof.
  cbv zeta.
  assert (Hbs : Forall is_byte [1; 2; 3; 255; 0])
    by (repeat constructor; unfold is_byte; lia).
  split; [exact Hbs|].
  apply (C6_read_installs_transported_bytes sample_translate sample_props
           (setHexData [Some 9; Some 9; Some 9; Some 9; Some 9; Some 9; Some 9]
              (readFromPosition sample_props (setTimer None mount)))
           0 1 0 1 [1; 2; 3; 255; 0] eq_refl Hbs).
Defined.

(** ** Further properties of the edit buffer *)

Lemma array_assign_length (l : list (option Z)) (i : nat) (v : Z) :
  length (array_assign l i v) = Nat.max (length l) (S i).
Proof.
  unfold array_assign. case_decide.
  - rewrite length_insert. lia.
  - rewrite !length_app, length_replicate. cbn [length]. lia.
Qed.

Lemma array_assign_lookup_eq (l : list (option Z)) (i : nat) (v : Z) :
  array_assign l i v !! i = Some (Some v).
Proof.
  unfold array_assign. case_decide.
  - apply list_lookup_insert_eq. assumption.
  - rewrite lookup_app_r by lia. rewrite lookup_app_r by (rewrite length_replicate; lia).
    rewrite length_replicate. replace (i - length l - (i - length l))%nat with 0%nat by lia.
    reflexivity.
Qed.

Lemma array_assign_lookup_ne (l : list (option Z)) (i j : nat) (v : Z) :
  j <> i ->
  array_assign l i v !! j
  = if decide (j < length l)%nat then l !! j
    else if decide (j < i)%nat then Some None else None.
Proof.
  intros Hne. unfold array_assign. destruct (decide (i < length l)%nat) as [Hi|Hi].
  - rewrite list_lookup_insert_ne by congruence.
    repeat case_decide; try reflexivity; try lia.
    apply lookup_ge_None_2. lia.
  - destruct (decide (j < length l)%nat) as [Hj|Hj].
    + apply lookup_app_l. exact Hj.
    + rewrite lookup_app_r by lia. destruct (decide (j < i)%nat) as [Hji|Hji].
      * rewrite lookup_app_l by (rewrite length_replicate; lia).
        apply lookup_replicate_2. lia.
      * rewrite lookup_app_r by (rewrite length_replicate; lia).
        rewrite length_replicate. apply lookup_ge_None_2. cbn [length]. lia.
Qed.

(** X1: an edit at an index at or past the end of the buffer extends it:
    the buffer then ends at that index, the old entries are kept, the
    entries in between read as undefined, and the entry at the index is
    the value. *)
Theorem X1_edit_past_end_extends translate (props : HexEditViewProps)
    (st : State) (i : nat) (v : Z) :
  (length (hexData st) <= i)%nat ->
  let st' := step translate props st (CellEdit v i) in
  length (hexData st') = S i /\
  hexData st' !! i = Some (Some v) /\
  (forall j : nat, (j < length (hexData st))%nat -> hexData st' !! j = hexData st !! j) /\
  (forall j : nat, (length (hexData st) <= j < i)%nat -> hexData st' !! j = Some None).
Proof.
  intros Hi st'. subst st'. rewrite step_CellEdit.
  unfold onHexValueChange. cbn [hexData setHexData].
  split; [rewrite array_assign_length; lia|].
  split; [apply array_assign_lookup_eq|].
  split; intros j Hj; rewrite array_assign_lookup_ne by lia.
  - rewrite decide_True by lia. reflexivity.
  - rewrite decide_False by lia. rewrite decide_True by lia. reflexivity.
Qed.

(** An edit two cells past the end of a three-byte buffer. *)
Lemma X1_edit_past_end_example :
  let st := setHexData [Some 1; Some 2; Some 3] mount in
  let st' := step sample_translate sample_props st (CellEdit 255 5) in
  length (hexData st') = 6%nat /\
  hexData st' !! 5%nat = Some (Some 255) /\
  (forall j : nat, (j < length (hexData st))%nat -> hexData st' !! j = hexData st !! j) /\
  (forall j : nat, (length (hexData st) <= j < 5)%nat -> hexData st' !! j = Some None).
Proof.
  apply (X1_edit_past_end_extends sample_translate sample_props
           (setHexData [Some 1; Some 2; Some 3] mount) 5 255).
  simpl. lia.
Defined.

(** X2: of two edits of the same cell the later one stands, wherever the
    cell lies: the state is the one the later edit alone would give. *)
Theorem X2_later_edit_wins translate (props : HexEditViewProps)
    (st : State) (i : nat) (v1 v2 : Z) :
  run translate props [CellEdit v1 i; CellEdit v2 i] st
  = step translate props st (CellEdit v2 i).
Proof.
  rewrite !run_cons, run_nil, !step_CellEdit.
  unfold onHexValueChange, setHexData. cbn [hexData fromPosition positionByteValues
    bigEndian readError debounceTimer nextRequest inflight calls notifications].
  f_equal. apply list_eq. intros j.
  destruct (decide (j = i)) as [->|Hne].
  - rewrite !array_assign_lookup_eq. reflexivity.
  - rewrite !array_assign_lookup_ne by exact Hne.
    rewrite array_assign_length.
    repeat case_decide; try reflexivity; try lia.
Qed.

(** X3: edits of two different cells give the same buffer in either
    order, inside the buffer or past its end. *)
Theorem X3_edits_commute translate (props : HexEditViewProps)
    (st : State) (i j : nat) (v w : Z) :
  i <> j ->
  run translate props [CellEdit v i; CellEdit w j] st
  = run translate props [CellEdit w j; CellEdit v i] st.
Proof.
  intros Hij. rewrite !run_cons, !run_nil, !step_CellEdit.
  unfold onHexValueChange, setHexData. cbn [hexData fromPosition positionByteValues
    bigEndian readError debounceTimer nextRequest inflight calls notifications].
  f_equal. apply list_eq. intros k.
  destruct (decide (k = i)) as [->|Hki]; [|destruct (decide (k = j)) as [->|Hkj]].
  - rewrite array_assign_lookup_eq.
    rewrite array_assign_lookup_ne by exact Hij.
    rewrite array_assign_lookup_eq, array_assign_length.
    repeat case_decide; try reflexivity; lia.
  - rewrite array_assign_lookup_eq.
    rewrite array_assign_lookup_ne by congruence.
    rewrite array_assign_lookup_eq, array_assign_length.
    repeat case_decide; try reflexivity; lia.
  - rewrite !array_assign_lookup_ne by assumption.
    rewrite !array_assign_length.
    repeat case_decide; try reflexivity; lia.
Qed.

Lemma X3_two_cells_example :
  (5 <> 1)%nat /\
  run sample_translate sample_props [CellEdit 7 5; CellEdit 9 1]
    (setHexData [Some 1; Some 2; Some 3] mount)
  = run sample_translate sample_props [CellEdit 9 1; CellEdit 7 5]
      (setHexData [Some 1; Some 2; Some 3] mount).
Proof.
  split; [lia|].
  apply (X3_edits_commute sample_translate sample_props
           (setHexData [Some 1; Some 2; Some 3] mount) 5 1 7 9).
  lia.
Defined.

(** ** The grid inputs *)

Lemma inputsMemo_length columns (props : HexEditViewProps) (st : State) :
  length (inputsMemo columns props st) = Z.to_nat (rows props * columns).
Proof. unfold inputsMemo. rewrite length_fmap. apply length_seq. Qed.

Lemma inputsMemo_lookup columns (props : HexEditViewProps) (st : State) (i : nat) :
  (Z.of_nat i < rows props * columns) ->
  exists inp, inputsMemo columns props st !! i = Some inp /\
    InputHex.bytePosition inp = i /\
    InputHex.filePosition inp = number_add (fromPosition st) (Z.of_nat i) /\
    InputHex.hexValue inp = array_get (hexData st) i.
Proof.
  intros Hi. unfold inputsMemo. rewrite list_lookup_fmap.
  rewrite lookup_seq_lt by lia. cbn [fmap option_fmap option_map Nat.add].
  eexists. split; [reflexivity|]. repeat split.
Qed.


(** The rounding agrees with the addition of doubles where it starts to
    matter. *)
Example number_add_rounds_to_even :
  number_add (2 ^ 53) 1 = Finite (2 ^ 53) /\
  (9007199254740992 + 1 =? 9007199254740992)%float = true /\
  number_add (2 ^ 53) 3 = Finite (2 ^ 53 + 4) /\
  (9007199254740992 + 3 =? 9007199254740996)%float = true.
Proof. repeat split; vm_compute; reflexivity. Qed.



(** X5: after an edit of cell i, anywhere in the grid, the input of cell i
    shows the value typed, and every other input shows what it showed
    before. *)
Theorem X5_edit_shows_in_its_input translate columns (props : HexEditViewProps)
    (st : State) (i : nat) (v : Z) :
  Z.of_nat i < rows props * columns ->
  let st' := step translate props st (CellEdit v i) in
  (InputHex.hexValue <$> inputsMemo columns props st' !! i) = Some (Some v) /\
  (forall j : nat, j <> i ->
     (InputHex.hexValue <$> inputsMemo columns props st' !! j)
     = (InputHex.hexValue <$> inputsMemo columns props st !! j)).
Proof.
  intros Hi st'. subst st'. rewrite step_CellEdit. split.
  - destruct (inputsMemo_lookup columns props (onHexValueChange v i st) i Hi)
      as (inp & -> & _ & _ & H).
    cbn [fmap option_fmap option_map]. rewrite H. unfold onHexValueChange, array_get.
    cbn [hexData setHexData]. rewrite array_assign_lookup_eq. reflexivity.
  - intros j Hj. destruct (Z_lt_ge_dec (Z.of_nat j) (rows props * columns)) as [Hlt|Hge].
    + destruct (inputsMemo_lookup columns props (onHexValueChange v i st) j Hlt)
        as (inp' & -> & _ & _ & H').
      destruct (inputsMemo_lookup columns props st j Hlt) as (inp & -> & _ & _ & H).
      cbn [fmap option_fmap option_map]. rewrite H', H. f_equal.
      unfold onHexValueChange, array_get. cbn [hexData setHexData].
      rewrite array_assign_lookup_ne by exact Hj.
      repeat case_decide; try reflexivity;
        rewrite lookup_ge_None_2 by lia; reflexivity.
    + rewrite !(lookup_ge_None_2 (inputsMemo _ _ _)) by (rewrite inputsMemo_length; lia).
      reflexivity.
Qed.

Lemma X5_edit_in_grid_example :
  let st := setHexData [Some 1; Some 2; Some 3] mount in
  let st' := step sample_translate sample_props st (CellEdit 255 5) in
  Z.of_nat 5 < rows sample_props * 16 /\
  (InputHex.hexValue <$> inputsMemo 16 sample_props st' !! 5%nat) = Some (Some 255) /\
  (InputHex.hexValue <$> inputsMemo 16 sample_props st' !! 4%nat) = Some None.
Proof.
  cbv zeta. split; [simpl; lia|].
  destruct (X5_edit_shows_in_its_input sample_translate 16 sample_props
              (setHexData [Some 1; Some 2; Some 3] mount) 5 255) as [H1 H2];
    [simpl; lia|].
  split; [exact H1|]. rewrite H2 by lia. reflexivity.
Defined.

(** ** What a settled response leaves alone *)

Section Frames.

Variable translate : string -> option string -> list (string * Thrown) -> string.
Variable props : HexEditViewProps.

Lemma readFromPosition_settled_frame o st :
  let st' := readFromPosition_settled translate o st in
  fromPosition st' = fromPosition st /\
  positionByteValues st' = positionByteValues st /\
  bigEndian st' = bigEndian st /\
  debounceTimer st' = debounceTimer st /\
  nextRequest st' = nextRequest st /\
  inflight st' = inflight st /\
  calls st' = calls st.
Proof.
  unfold readFromPosition_settled. destruct (_ ≫= _); repeat split.
Qed.

Lemma onFilePositionChange_settled_frame o st :
  let st' := onFilePositionChange_settled o st in
  fromPosition st' = fromPosition st /\
  hexData st' = hexData st /\
  bigEndian st' = bigEndian st /\
  readError st' = readError st /\
  debounceTimer st' = debounceTimer st /\
  nextRequest st' = nextRequest st /\
  inflight st' = inflight st /\
  calls st' = calls st /\
  notifications st' = notifications st.
Proof.
  unfold onFilePositionChange_settled. destruct (_ ≫= _); repeat split.
Qed.

Lemma handle_ReadSettled_inflight st id o k :
  k <> id ->
  inflight (handle translate props (ReadSettled id o) st) !! k = inflight st !! k.
Proof.
  intros Hk. cbn [handle]. destruct (inflight st !! id) as [[? ?|? ?]|]; try reflexivity.
  destruct (readFromPosition_settled_frame o (settle id st)) as (_ & _ & _ & _ & _ & -> & _).
  cbn [settle inflight]. apply lookup_delete_ne. congruence.
Qed.

Lemma handle_DecodeSettled_inflight st id o k :
  k <> id ->
  inflight (handle translate props (DecodeSettled id o) st) !! k = inflight st !! k.
Proof.
  intros Hk. cbn [handle]. destruct (inflight st !! id) as [[? ?|? ?]|]; try reflexivity.
  destruct (onFilePositionChange_settled_frame o (settle id st))
    as (_ & _ & _ & _ & _ & _ & -> & _).
  cbn [settle inflight]. apply lookup_delete_ne. congruence.
Qed.

End Frames.

(** ** A decode response the view cannot narrow *)

Lemma reduceBundle_normal_can_index (f b : gmap string JsVal) :
  reduceBundle f = Normal b ->
  forallb (fun k => can_index (f !! k)) charFields = true.
Proof.
  unfold reduceBundle. intros H.
  apply bind_normal in H as (u1 & E1 & H). apply bind_normal in H as (u2 & E2 & H).
  apply bind_normal in H as (u3 & E3 & H). apply bind_normal in H as (u4 & E4 & H).
  apply bind_normal in H as (u5 & E5 & H). apply bind_normal in H as (u6 & E6 & _).
  apply index0_normal in E1 as (? & _ & E1), E2 as (? & _ & E2), E3 as (? & _ & E3),
    E4 as (? & _ & E4), E5 as (? & _ & E5), E6 as (? & _ & E6).
  cbn [charFields forallb]. rewrite E1, E2, E3, E4, E5, E6. reflexivity.
Qed.

(** X6: a decode response is installed exactly when each of the six
    character fields is present and neither undefined nor null. A
    response with a field that is missing or null is dropped without a
    trace: the displayed bundle, the notifications, the error flag and the
    buffer stay as they were, and the request is no longer pending. *)
Theorem X6_unnarrowable_bundle_dropped translate (props : HexEditViewProps)
    (st : State) (id : nat) (fi pos : Z) (f : gmap string JsVal) :
  inflight st !! id = Some (get_data_in_position fi pos) ->
  forallb (fun k => can_index (f !! k)) charFields = false ->
  let st' := step translate props st (DecodeSettled id (Fulfilled f)) in
  positionByteValues st' = positionByteValues st /\
  notifications st' = notifications st /\
  readError st' = readError st /\
  hexData st' = hexData st /\
  inflight st' = delete id (inflight st) /\
  (forall f', (exists b, reduceBundle f' = Normal b)
              <-> forallb (fun k => can_index (f' !! k)) charFields = true).
Proof.
  intros Hin Hf st'. subst st'.
  rewrite (step_DecodeSettled translate props _ _ _ _ _ Hin).
  unfold onFilePositionChange_settled. cbn [wrap mbind completion_bind].
  destruct (reduceBundle f) as [b|t] eqn:E.
  - apply reduceBundle_normal_can_index in E. congruence.
  - repeat split.
    + intros [b Hb]. apply (reduceBundle_normal_can_index _ _ Hb).
    + apply reduceBundle_total.
Qed.

(** The sample answer with one of the six fields null. *)
Lemma X6_unnarrowable_bundle_example :
  let f : gmap string JsVal := <["char_be_utf32"%string := VNull]> (sample_bundle 10) in
  let st := onFilePositionChange sample_props 10 mount in
  let st' := step sample_translate sample_props st (DecodeSettled 0 (Fulfilled f)) in
  positionByteValues st' = None /\ notifications st' = [] /\ inflight st' = delete 0%nat (inflight st).
Proof.
  cbv zeta.
  destruct (X6_unnarrowable_bundle_dropped sample_translate sample_props
              (onFilePositionChange sample_props 10 mount) 0 1 10
              (<["char_be_utf32"%string := VNull]> (sample_bundle 10)))
    as (H1 & H2 & _ & _ & H5 & _).
  - reflexivity.
  - vm_compute. reflexivity.
  - rewrite H1, H2, H5. repeat split.
Defined.

(** ** Window reads answered out of order *)

Lemma readFromPosition_settled_ok translate (bs : list Z) (idx : Z) (st : State) :
  Forall is_byte bs ->
  readFromPosition_settled translate
    (Fulfilled {| file_index := idx; file_data := Base64.btoa bs |}) st
  = setReadError false (setHexData (Some <$> bs) st).
Proof.
  intros Hbs. unfold readFromPosition_settled.
  cbn [wrap mbind completion_bind file_data].
  pose proof (Uint8Array_from_atob bs Hbs) as E.
  cbn [mbind completion_bind] in E. rewrite E. reflexivity.
Qed.

(** X7: window reads carry no token either. When the window moves to A,
    the read for A is sent, the window moves on to B, the read for B is
    sent, and the answer for A arrives last, the buffer holds the bytes
    of offset A while the window offset is B. *)
Theorem X7_stale_window_read_installed translate (props : HexEditViewProps)
    (st : State) (A B idx : Z) (bsA : list Z) (oB : Settled FileReadResult) :
  A <> fromPosition st ->
  B <> A ->
  Forall is_byte bsA ->
  let resA := {| file_index := idx; file_data := Base64.btoa bsA |} in
  let st' := run translate props
               (stale_reads A B (nextRequest st) (S (nextRequest st)) (Fulfilled resA) oB) st in
  fromPosition st' = B /\
  hexData st' = Some <$> bsA /\
  readError st' = false /\
  calls st' = calls st ++ [read_file (fileIndex props) A; read_file (fileIndex props) B].
Proof.
  intros HA HB Hbs resA st'.
  set (s2 := readFromPosition props (setTimer None (setTimer (Some 100%nat) (onChange A st)))).
  set (s4 := readFromPosition props (setTimer None (setTimer (Some 100%nat) (onChange B s2)))).
  set (s5 := readFromPosition_settled translate oB (settle (S (nextRequest st)) s4)).
  assert (I4 : inflight s4 !! S (nextRequest st) = Some (read_file (fileIndex props) B))
    by apply lookup_insert_eq.
  destruct (readFromPosition_settled_frame translate oB (settle (S (nextRequest st)) s4))
    as (F5 & _ & _ & _ & _ & I5 & C5).
  fold s5 in F5, I5, C5.
  assert (I5' : inflight s5 !! nextRequest st = Some (read_file (fileIndex props) A)).
  { rewrite I5. subst s4 s2. cbn [settle inflight readFromPosition send nextRequest
      setTimer onChange setFromPosition].
    rewrite lookup_delete_ne, lookup_insert_ne by lia. apply lookup_insert_eq. }
  assert (E : st' = setReadError false (setHexData (Some <$> bsA) (settle (nextRequest st) s5))).
  { subst st' resA. unfold stale_reads. rewrite !run_cons, run_nil.
    rewrite (step_SliderChange translate props st A HA).
    rewrite (step_Elapse translate props (setTimer _ (onChange A st))).
    unfold useDebounce_elapse at 1. cbn [debounceTimer setTimer Nat.leb]. fold s2.
    rewrite (step_SliderChange translate props s2 B) by exact HB.
    rewrite (step_Elapse translate props (setTimer _ (onChange B s2))).
    unfold useDebounce_elapse at 1. cbn [debounceTimer setTimer Nat.leb]. fold s4.
    rewrite (step_ReadSettled translate props _ _ _ _ _ I4). fold s5.
    rewrite (step_ReadSettled translate props _ _ _ _ _ I5').
    apply readFromPosition_settled_ok, Hbs. }
  rewrite E. cbn [fromPosition hexData readError calls setReadError setHexData settle].
  rewrite F5, C5. repeat (split; [reflexivity|]).
  subst s4 s2. cbn [calls settle readFromPosition send setTimer onChange setFromPosition
    fromPosition readFile].
  rewrite <- app_assoc. reflexivity.
Qed.

Lemma X7_stale_window_read_example :
  let resA := {| file_index := 1; file_data := "AQID" |} in
  let resB := {| file_index := 1; file_data := "BAUG" |} in
  let st := run sample_translate sample_props [Elapse 100] mount in
  let st' := run sample_translate sample_props
               (stale_reads 16 32 1 2 (Fulfilled resA) (Fulfilled resB)) st in
  fromPosition st' = 32 /\
  hexData st' = [Some 1; Some 2; Some 3] /\
  readError st' = false /\
  calls st' = [read_file 1 0; read_file 1 16; read_file 1 32].
Proof.
  apply (X7_stale_window_read_installed sample_translate sample_props
           (run sample_translate sample_props [Elapse 100] mount)
           16 32 1 [1; 2; 3] (Fulfilled {| file_index := 1; file_data := "BAUG" |})).
  - discriminate.
  - discriminate.
  - repeat constructor; unfold is_byte; lia.
Defined.

(** ** The two flows do not interfere *)

(** X8: a window-read response and a decode response for different
    requests can arrive in either order; the component ends in the same
    state. *)
Theorem X8_read_and_decode_responses_commute translate (props : HexEditViewProps)
    (st : State) (i j : nat) (o1 : Settled FileReadResult)
    (o2 : Settled (gmap string JsVal)) :
  i <> j ->
  run translate props [ReadSettled i o1; DecodeSettled j o2] st
  = run translate props [DecodeSettled j o2; ReadSettled i o1] st.
Proof.
  intros Hij. rewrite !run_cons, !run_nil.
  rewrite !(step_not_slider translate props) by discriminate.
  pose proof (handle_ReadSettled_inflight translate props st i o1 j (not_eq_sym Hij)) as Hr.
  pose proof (handle_DecodeSettled_inflight translate props st j o2 i Hij) as Hd.
  cbn [handle] in *.
  destruct (inflight st !! i) as [[fi pi|fi pi]|] eqn:Ei;
    destruct (inflight st !! j) as [[fj pj|fj pj]|] eqn:Ej;
    rewrite ?Hr, ?Hd, ?Ei, ?Ej; try reflexivity.
  unfold readFromPosition_settled, onFilePositionChange_settled.
  destruct (_ ≫= _) as [buff|e1]; destruct (_ ≫= _) as [b|e2];
    unfold setReadError, setHexData, setPositionByteValues, notification, settle;
    cbn [fromPosition hexData positionByteValues bigEndian readError debounceTimer
         nextRequest inflight calls notifications];
    f_equal; apply delete_delete.
Qed.

Lemma X8_read_and_decode_responses_example :
  let st := onFilePositionChange sample_props 10
              (readFromPosition sample_props (setTimer None mount)) in
  let o1 := Fulfilled {| file_index := 1; file_data := "AQID" |} in
  let o2 := Fulfilled (sample_bundle 10) in
  (0 <> 1)%nat /\
  run sample_translate sample_props [ReadSettled 0 o1; DecodeSettled 1 o2] st
  = run sample_translate sample_props [DecodeSettled 1 o2; ReadSettled 0 o1] st.
Proof.
  cbv zeta. split; [lia|].
  apply (X8_read_and_decode_responses_commute sample_translate sample_props). lia.
Defined.

(** ** What the view sends and reports *)

Section Traffic.

Variable translate : string -> option string -> list (string * Thrown) -> string.
Variable props : HexEditViewProps.

Lemma rerender_fields old new :
  let st' := rerender old new in
  fromPosition st' = fromPosition new /\
  hexData st' = hexData new /\
  positionByteValues st' = positionByteValues new /\
  bigEndian st' = bigEndian new /\
  readError st' = readError new /\
  nextRequest st' = nextRequest new /\
  inflight st' = inflight new /\
  calls st' = calls new /\
  notifications st' = notifications new.
Proof. unfold rerender, useDebounce. destruct (bool_decide _); repeat split. Qed.

Lemma step_calls st ev :
  calls (step translate props st ev) = calls st ++ commands_sent props ev st.
Proof.
  unfold step.
  destruct (rerender_fields st (handle translate props ev st))
    as (_ & _ & _ & _ & _ & _ & _ & -> & _).
  destruct ev as [v|c|v i|v|dt|id o|id o]; cbn [handle commands_sent];
    rewrite ?app_nil_r; try reflexivity.
  - unfold useDebounce_elapse. destruct (debounceTimer st) as [r|]; [|apply eq_sym, app_nil_r].
    destruct (r <=? dt)%nat; [reflexivity | apply eq_sym, app_nil_r].
  - destruct (inflight st !! id) as [[? ?|? ?]|]; try reflexivity.
    destruct (readFromPosition_settled_frame translate o (settle id st))
      as (_ & _ & _ & _ & _ & _ & ->). reflexivity.
  - destruct (inflight st !! id) as [[? ?|? ?]|]; try reflexivity.
    destruct (onFilePositionChange_settled_frame o (settle id st))
      as (_ & _ & _ & _ & _ & _ & _ & -> & _). reflexivity.
Qed.

Lemma commands_sent_fileIndex ev st :
  Forall (fun c => invoke_fileIndex c = fileIndex props) (commands_sent props ev st).
Proof.
  destruct ev as [v|c|v i|v|dt|id o|id o]; cbn [commands_sent]; try constructor.
  - reflexivity.
  - constructor.
  - destruct (debounceTimer st) as [r|]; [|constructor].
    destruct (r <=? dt)%nat; repeat constructor.
Qed.

Lemma run_calls_fileIndex evs st :
  Forall (fun c => invoke_fileIndex c = fileIndex props) (calls st) ->
  Forall (fun c => invoke_fileIndex c = fileIndex props) (calls (run translate props evs st)).
Proof.
  revert st. induction evs as [|ev evs IH]; intros st H; [exact H|].
  rewrite run_cons. apply IH. rewrite step_calls.
  apply Forall_app. split; [exact H | apply commands_sent_fileIndex].
Qed.

Lemma step_notifications st ev :
  Forall (is_read_failure_notice translate) (notifications st) ->
  Forall (is_read_failure_notice translate) (notifications (step translate props st ev)).
Proof.
  intros H. unfold step.
  destruct (rerender_fields st (handle translate props ev st))
    as (_ & _ & _ & _ & _ & _ & _ & _ & ->).
  destruct ev as [v|c|v i|v|dt|id o|id o]; cbn [handle]; try exact H.
  - unfold useDebounce_elapse. destruct (debounceTimer st) as [r|]; [|exact H].
    destruct (r <=? dt)%nat; exact H.
  - destruct (inflight st !! id) as [[? ?|? ?]|]; try exact H.
    unfold readFromPosition_settled. destruct (_ ≫= _) as [buff|error]; [exact H|].
    cbn [notifications notification setReadError settle].
    apply Forall_app. split; [exact H|]. repeat constructor. exists error. reflexivity.
  - destruct (inflight st !! id) as [[? ?|? ?]|]; try exact H.
    destruct (onFilePositionChange_settled_frame o (settle id st))
      as (_ & _ & _ & _ & _ & _ & _ & _ & ->). exact H.
Qed.

Lemma run_notifications evs st :
  Forall (is_read_failure_notice translate) (notifications st) ->
  Forall (is_read_failure_notice translate) (notifications (run translate props evs st)).
Proof.
  revert st. induction evs as [|ev evs IH]; intros st H; [exact H|].
  rewrite run_cons. apply IH, step_notifications, H.
Qed.

End Traffic.

(** X9: an event appends to the log of backend calls exactly this: a cell
    focus one [get_data_in_position] for the focused offset, the debounce
    timer running out one [read_file] for the window offset, and any
    other event (scroll change, switch, cell edit, a response of either
    kind) nothing. No call is ever removed or reordered. *)
Theorem X9_only_focus_and_timer_send translate (props : HexEditViewProps)
    (st : State) (ev : Event) :
  calls (step translate props st ev) = calls st ++ commands_sent props ev st /\
  (length (commands_sent props ev st) <= 1)%nat /\
  ((forall v, ev <> CellFocus v) -> (forall dt, ev <> Elapse dt) ->
   calls (step translate props st ev) = calls st).
Proof.
  pose proof (step_calls translate props st ev) as E.
  split; [exact E|]. split.
  - destruct ev as [v|c|v i|v|dt|id o|id o]; cbn [commands_sent length]; try lia.
    destruct (debounceTimer st) as [r|]; [|cbn; lia].
    destruct (r <=? dt)%nat; cbn; lia.
  - intros Hf He. rewrite E.
    destruct ev as [v|c|v i|v|dt|id o|id o]; cbn [commands_sent];
      try apply app_nil_r.
    + destruct (Hf v eq_refl).
    + destruct (He dt eq_refl).
Qed.

(** X10: whatever happens to the component after mount, every command it
    has sent addresses the file index of its props. *)
Theorem X10_calls_address_own_file translate (props : HexEditViewProps) (evs : list Event) :
  Forall (fun c => invoke_fileIndex c = fileIndex props)
    (calls (run translate props evs mount)).
Proof. apply run_calls_fileIndex. constructor. Qed.

(** X11: the error flag mirrors the window read that settled last: set
    when that read failed (rejected, or a payload that is not base64),
    cleared when it succeeded. *)
Theorem X11_error_flag_mirrors_last_read translate (props : HexEditViewProps)
    (st : State) (id : nat) (fi pos : Z) (o : Settled FileReadResult) :
  inflight st !! id = Some (read_file fi pos) ->
  readError (step translate props st (ReadSettled id o)) = read_fails o.
Proof.
  intros Hin. rewrite (step_ReadSettled translate props _ _ _ _ _ Hin).
  unfold readFromPosition_settled, read_fails.
  destruct o as [res|reason]; cbn [wrap mbind completion_bind]; [|reflexivity].
  destruct (Base64.atob (file_data res)); reflexivity.
Qed.

Lemma X11_error_flag_example :
  let st := setReadError true (readFromPosition sample_props (setTimer None mount)) in
  inflight st !! 0%nat = Some (read_file 1 0) /\
  readError (step sample_translate sample_props st
               (ReadSettled 0 (Fulfilled {| file_index := 1; file_data := "AQID" |}))) = false.
Proof.
  cbv zeta. split; [reflexivity|].
  rewrite (X11_error_flag_mirrors_last_read sample_translate sample_props
             (setReadError true (readFromPosition sample_props (setTimer None mount)))
             0 1 0 (Fulfilled {| file_index := 1; file_data := "AQID" |}) eq_refl).
  reflexivity.
Defined.

Lemma step_notices translate (props : HexEditViewProps) (st : State) (ev : Event) :
  notifications (step translate props st ev)
  = notifications st ++ notices_raised translate ev st.
Proof.
  unfold step.
  destruct (rerender_fields st (handle translate props ev st))
    as (_ & _ & _ & _ & _ & _ & _ & _ & ->).
  destruct ev as [v|c|v i|v|dt|id o|id o]; cbn [handle notices_raised];
    rewrite ?app_nil_r; try reflexivity.
  - unfold useDebounce_elapse. destruct (debounceTimer st) as [r|]; [|reflexivity].
    destruct (r <=? dt)%nat; reflexivity.
  - destruct (inflight st !! id) as [[? ?|? ?]|]; rewrite ?app_nil_r; try reflexivity.
    unfold readFromPosition_settled, read_fails, read_error.
    destruct o as [res|reason]; cbn [wrap mbind completion_bind].
    + destruct (Base64.atob (file_data res)) as [s|t] eqn:E;
        cbn [mbind completion_bind mret completion_ret].
      * rewrite app_nil_r. reflexivity.
      * unfold Base64.atob in E. destruct (Base64.atob_chars _); [discriminate|].
        injection E as <-. reflexivity.
    + reflexivity.
  - destruct (inflight st !! id) as [[? ?|? ?]|]; try reflexivity.
    destruct (onFilePositionChange_settled_frame o (settle id st))
      as (_ & _ & _ & _ & _ & _ & _ & _ & ->). reflexivity.
Qed.

(** X12: an event appends to the notifications exactly this: a pending
    window read that settles as a failure appends the one error-level
    "fileReadFailed" message built from its error, and any other event
    (a read that succeeds, a decode response fulfilled or rejected, a
    cell edit or focus, the scroll control, the switch, time passing)
    appends nothing. So every notification raised since mount is such a
    message of a failed window read. *)
Theorem X12_only_read_failures_notify translate (props : HexEditViewProps)
    (st : State) (ev : Event) (evs : list Event) :
  notifications (step translate props st ev)
  = notifications st ++ notices_raised translate ev st /\
  ((forall id o, ev <> ReadSettled id o) ->
   notifications (step translate props st ev) = notifications st) /\
  (forall id o, ev = ReadSettled id o -> read_fails o = false ->
   notifications (step translate props st ev) = notifications st) /\
  Forall (is_read_failure_notice translate)
    (notifications (run translate props evs mount)).
Proof.
  pose proof (step_notices translate props st ev) as E.
  split; [exact E|]. split; [|split].
  - intros Hne. rewrite E.
    destruct ev as [v|c|v i|v|dt|id o|id o]; cbn [notices_raised]; try apply app_nil_r.
    destruct (Hne id o eq_refl).
  - intros id o -> Hok. rewrite E. cbn [notices_raised].
    destruct (inflight st !! id) as [[? ?|? ?]|]; rewrite ?Hok; apply app_nil_r.
  - apply run_notifications. constructor.
Qed.

(** ** Payloads the decoder forgives, and payloads it refuses *)

Section Payloads.

Import Base64.

Lemma filter_filter_same {A} (f : A -> bool) (l : list A) :
  List.filter f (List.filter f l) = List.filter f l.
Proof.
  apply forallb_filter_id. apply forallb_forall. intros x Hx.
  apply filter_In in Hx. tauto.
Qed.

(** Whitespace anywhere in the payload is skipped. *)
Lemma atob_chars_skips_whitespace (data : list ascii) :
  atob_chars (List.filter (fun c => negb (is_ascii_whitespace c)) data) = atob_chars data.
Proof. unfold atob_chars. rewrite filter_filter_same. reflexivity. Qed.

Lemma body_not_pad (bs : list Z) :
  Forall is_byte bs ->
  Forall (fun c => Ascii.eqb c "=" = false) (b64_char <$> sextets bs).
Proof.
  intros H. apply sextets_range in H. apply Forall_fmap.
  eapply Forall_impl; [exact H|]. intros v Hv. apply b64_char_not_pad, Hv.
Qed.

Lemma body_no_whitespace (bs : list Z) :
  Forall is_byte bs ->
  List.filter (fun c => negb (is_ascii_whitespace c)) (b64_char <$> sextets bs)
  = b64_char <$> sextets bs.
Proof.
  intros H. apply forallb_filter_id, forallb_forall. intros c Hc.
  apply list_elem_of_In, list_elem_of_fmap in Hc as (v & -> & Hv).
  apply sextets_range in H. rewrite Forall_forall in H.
  rewrite b64_char_not_whitespace by (apply H, Hv). reflexivity.
Qed.

Lemma strip_padding_unpadded (body : list ascii) :
  Forall (fun c => Ascii.eqb c "=" = false) body -> strip_padding body = body.
Proof.
  intros H. pose proof (strip_padding_body body [] H (or_introl eq_refl)) as E.
  rewrite app_nil_r in E. unfold strip_padding in *.
  destruct (Z.of_nat (length body) mod 4 =? 0) eqn:Hlen; [|reflexivity].
  apply E. apply Z.eqb_eq, Hlen.
Qed.

(** The encoding without its padding decodes to the same bytes. *)
Lemma atob_chars_unpadded (bs : list Z) :
  Forall is_byte bs -> atob_chars (b64_char <$> sextets bs) = Some bs.
Proof.
  intros H. unfold atob_chars. cbv zeta.
  rewrite body_no_whitespace, strip_padding_unpadded by (try apply body_not_pad; exact H).
  rewrite length_fmap.
  destruct (Z.eqb_spec (Z.of_nat (length (sextets bs)) mod 4) 1) as [E|_].
  - destruct (sextets_length bs E).
  - rewrite b64_values_chars by (apply sextets_range, H).
    cbn [fmap option_fmap option_map]. rewrite sextets_to_bytes_sextets by exact H.
    reflexivity.
Qed.

Lemma b64_values_foreign (cs : list ascii) (c : ascii) :
  In c cs -> b64_value c = None -> b64_values cs = None.
Proof.
  induction cs as [|c' cs IH]; intros Hin Hc; [destruct Hin|].
  cbn [b64_values]. destruct Hin as [->|Hin].
  - rewrite Hc. reflexivity.
  - rewrite (IH Hin Hc). destruct (b64_value c'); reflexivity.
Qed.

(** Stripping the padding removes nothing but [=]. *)
Lemma strip_padding_keeps (cs : list ascii) (c : ascii) :
  In c cs -> Ascii.eqb c "=" = false -> In c (strip_padding cs).
Proof.
  intros Hin Hc. unfold strip_padding.
  destruct (Z.of_nat (length cs) mod 4 =? 0); [|exact Hin].
  pose proof (proj1 (in_rev cs c) Hin) as Hrev.
  destruct (rev cs) as [|c1 r1]; [exact Hin|].
  destruct (Ascii.eqb c1 "=") eqn:E1; [|exact Hin].
  destruct Hrev as [->|Hrev]; [congruence|].
  destruct r1 as [|c2 r2]; [destruct Hrev|].
  destruct (Ascii.eqb c2 "=") eqn:E2.
  - destruct Hrev as [->|Hrev]; [congruence|].
    apply (proj1 (in_rev r2 c)). exact Hrev.
  - apply (proj1 (in_rev (c2 :: r2) c)). exact Hrev.
Qed.

Lemma atob_chars_foreign (data : list ascii) :
  existsb is_foreign_char data = true -> atob_chars data = None.
Proof.
  intros H. apply existsb_exists in H as (c & Hin & Hc).
  unfold is_foreign_char in Hc. apply andb_true_iff in Hc as [Hc Hv].
  apply andb_true_iff in Hc as [Hw Hp]. apply negb_true_iff in Hp.
  destruct (b64_value c) eqn:Ev; [discriminate|].
  unfold atob_chars. cbv zeta.
  assert (Hin' : In c (strip_padding
                   (List.filter (fun c => negb (is_ascii_whitespace c)) data))).
  { apply strip_padding_keeps; [|exact Hp]. apply filter_In. split; assumption. }
  rewrite (b64_values_foreign _ c Hin' Ev).
  destruct (_ =? 1); reflexivity.
Qed.

End Payloads.

(** X13: the window reader forgives line breaks and blanks anywhere in the
    payload, and a payload without its padding: when the payload, its
    whitespace removed, is the padded or the unpadded encoding of a byte
    sequence, that sequence is installed and the error flag is cleared. *)
Theorem X13_forgiving_payload_installed translate (props : HexEditViewProps)
    (st : State) (id : nat) (fi pos idx : Z) (payload : string) (bs : list Z) :
  inflight st !! id = Some (read_file fi pos) ->
  Forall is_byte bs ->
  (let data := List.filter (fun c => negb (Base64.is_ascii_whitespace c))
                 (list_ascii_of_string payload) in
   data = Base64.encode bs \/ data = Base64.b64_char <$> Base64.sextets bs) ->
  let st' := step translate props st
               (ReadSettled id (Fulfilled {| file_index := idx; file_data := payload |})) in
  hexData st' = Some <$> bs /\ readError st' = false.
Proof.
  intros Hin Hbs Hdata st'. subst st'. cbv zeta in Hdata.
  rewrite (step_ReadSettled translate props _ _ _ _ _ Hin).
  unfold readFromPosition_settled. cbn [wrap mbind completion_bind file_data].
  assert (E : Base64.atob_chars (list_ascii_of_string payload) = Some bs).
  { rewrite <- atob_chars_skips_whitespace.
    destruct Hdata as [-> | ->];
      [apply atob_chars_encode | apply atob_chars_unpadded]; exact Hbs. }
  unfold Base64.atob. rewrite E. cbn [mbind completion_bind mret completion_ret].
  cbn [hexData readError setReadError setHexData]. split; [|reflexivity].
  f_equal. unfold Uint8Array_from.
  rewrite list_ascii_of_string_of_list_ascii, map_map.
  clear E Hdata. induction Hbs as [|b bs Hb _ IH]; [reflexivity|].
  cbn [map]. rewrite byte_of_char, IH by exact Hb. reflexivity.
Qed.

(** Two groups on two lines, the padding left out. *)
Lemma X13_forgiving_payload_example :
  let payload := ("AQID" ++ String (ascii_of_nat 10) "/wA")%string in
  let st := readFromPosition sample_props (setTimer None mount) in
  let st' := step sample_translate sample_props st
               (ReadSettled 0 (Fulfilled {| file_index := 1; file_data := payload |})) in
  hexData st' = Some <$> [1; 2; 3; 255; 0] /\ readError st' = false.
Proof.
  apply (X13_forgiving_payload_installed sample_translate sample_props
           (readFromPosition sample_props (setTimer None mount)) 0 1 0 1
           ("AQID" ++ String (ascii_of_nat 10) "/wA")%string [1; 2; 3; 255; 0]).
  - reflexivity.
  - repeat constructor; unfold is_byte; lia.
  - right. reflexivity.
Defined.

(** X14: a payload holding any character that is neither whitespace, nor
    of the base64 alphabet, nor [=] (the [-] and [_] of the URL-safe
    alphabet, for one) makes the read fail: the buffer is kept, the error
    flag is set and the notification carries the decoder's
    InvalidCharacterError. *)
Theorem X14_foreign_character_fails_read translate (props : HexEditViewProps)
    (st : State) (id : nat) (fi pos idx : Z) (payload : string) :
  inflight st !! id = Some (read_file fi pos) ->
  existsb is_foreign_char (list_ascii_of_string payload) = true ->
  let st' := step translate props st
               (ReadSettled id (Fulfilled {| file_index := idx; file_data := payload |})) in
  hexData st' = hexData st /\
  readError st' = true /\
  notifications st'
  = notifications st
    ++ [("error"%string,
         translate "fileReadFailed"%string None [("error"%string, InvalidCharacterError)])].
Proof.
  intros Hin Hf st'. subst st'.
  rewrite (step_ReadSettled translate props _ _ _ _ _ Hin).
  unfold readFromPosition_settled. cbn [wrap mbind completion_bind file_data].
  unfold Base64.atob. rewrite (atob_chars_foreign _ Hf).
  cbn [mbind completion_bind]. repeat split.
Qed.

Lemma X14_foreign_character_example :
  let st := setHexData [Some 7] (readFromPosition sample_props (setTimer None mount)) in
  let st' := step sample_translate sample_props st
               (ReadSettled 0 (Fulfilled {| file_index := 1; file_data := "AQID_wA=" |})) in
  hexData st' = [Some 7] /\
  readError st' = true /\
  notifications st' = [("error", "fileReadFailed InvalidCharacterError")]%string.
Proof.
  apply (X14_foreign_character_fails_read sample_translate sample_props
           (setHexData [Some 7] (readFromPosition sample_props (setTimer None mount)))
           0 1 0 1 "AQID_wA=").
  - reflexivity.
  - reflexivity.
Defined.

(** ** Which event can change what *)

(** X15: a scroll change to the offset the window already has changes
    nothing: the state is the same, the debounce timer is not re-armed
    and no read will follow from it. *)
Theorem X15_same_offset_is_no_change translate (props : HexEditViewProps) (st : State) :
  step translate props st (SliderChange (fromPosition st)) = st.
Proof.
  rewrite step_same_offset by reflexivity.
  destruct st. reflexivity.
Qed.

(** X16: each part of the state has its own events. The buffer changes
    only on a cell edit or a window-read response; the displayed bundle
    only on a decode response; the window offset only on a scroll change;
    the endianness flag only on the switch; the error flag and the
    notifications only on a window-read response; the debounce timer only
    on a scroll change or the passing of time. *)
Theorem X16_each_field_has_its_events translate (props : HexEditViewProps)
    (st : State) (ev : Event) :
  let st' := step translate props st ev in
  (hexData st' <> hexData st ->
     (exists v i, ev = CellEdit v i) \/ (exists id o, ev = ReadSettled id o)) /\
  (positionByteValues st' <> positionByteValues st -> exists id o, ev = DecodeSettled id o) /\
  (fromPosition st' <> fromPosition st -> exists v, ev = SliderChange v) /\
  (bigEndian st' <> bigEndian st -> exists c, ev = SwitchChange c) /\
  (readError st' <> readError st -> exists id o, ev = ReadSettled id o) /\
  (notifications st' <> notifications st -> exists id o, ev = ReadSettled id o) /\
  (debounceTimer st' <> debounceTimer st ->
     (exists v, ev = SliderChange v) \/ (exists dt, ev = Elapse dt)).
Proof.
  cbv zeta.
  destruct ev as [v|c|v i|v|dt|id o|id o].
  - repeat split; intros H; eauto; exfalso; apply H; unfold step;
      destruct (rerender_fields st (handle translate props (SliderChange v) st))
        as (? & E2 & E3 & E4 & E5 & ? & ? & ? & E9);
      rewrite ?E2, ?E3, ?E4, ?E5, ?E9; reflexivity.
  - rewrite step_not_slider by discriminate.
    repeat split; intros H; eauto; exfalso; apply H; reflexivity.
  - rewrite step_CellEdit.
    repeat split; intros H; eauto; exfalso; apply H; reflexivity.
  - rewrite step_CellFocus.
    repeat split; intros H; eauto; exfalso; apply H; reflexivity.
  - rewrite step_Elapse.
    repeat split; intros H; eauto; exfalso; apply H; unfold useDebounce_elapse;
      destruct (debounceTimer st) as [r|]; try reflexivity;
      destruct (r <=? dt)%nat; reflexivity.
  - rewrite step_not_slider by discriminate. cbn [handle].
    repeat split; intros H; eauto; exfalso; apply H;
      destruct (inflight st !! id) as [[? ?|? ?]|]; try reflexivity;
      destruct (readFromPosition_settled_frame translate o (settle id st))
        as (E1 & E2 & E3 & E4 & _); rewrite ?E1, ?E2, ?E3, ?E4; reflexivity.
  - rewrite step_not_slider by discriminate. cbn [handle].
    repeat split; intros H; eauto; exfalso; apply H;
      destruct (inflight st !! id) as [[? ?|? ?]|]; try reflexivity;
      destruct (onFilePositionChange_settled_frame o (settle id st))
        as (E1 & E2 & E3 & E4 & E5 & _ & _ & _ & E9);
      rewrite ?E1, ?E2, ?E3, ?E4, ?E5, ?E9; reflexivity.
Qed.
